(** * fastapi-crudrouter: the in-memory backend, route registration and
      the error translation of the database adapters.

    The development follows the Python sources under
    [fastapi_crudrouter/core]:
    - [Py]       the few Python notions the code relies on: field values,
                 exceptions, list slicing, keyword-argument calls;
    - [Mem]      [mem.py], the [MemoryCRUDRouter] store and its six routes;
    - [Base]     [_base.py], the routes registered by [CRUDGenerator.__init__];
    - [Adapters] the [try]/[except] structure of the create and update routes
                 of [sqlalchemy.py], [gino_starlette.py], [databases.py] and
                 [tortoise.py].
    - [MemExtra], [Utils], [Overrides], [AdaptersExtra]
                 further notions on the in-memory router, [_utils.py] with
                 the schema defaults, the overriding methods of
                 [_base.py], and the delete-one routes of the adapters.
    The properties follow in [MemFacts], [MemSpec] and [MemMore] (in-memory
    router), [BaseSpec] and [OverridesSpec] (route registration and
    overriding), [UtilsSpec] (schema helpers), [AdaptersSpec] and
    [AdaptersMore] (database adapters).

    Python integers are unbounded and are modelled by [Z]; a pydantic
    [model.dict()] is a finite map from field names to values. *)

From Stdlib Require Import ZArith Lia Ascii.
From stdpp Require Import gmap strings list fin_maps sorting.

Local Open Scope string_scope.
Local Open Scope list_scope.
Local Open Scope Z_scope.

(** ** Python preliminaries *)

Module Py.

(** Field values carried by a payload. *)
Inductive value : Type :=
| VNone
| VBool (b : bool)
| VInt (n : Z)
| VStr (s : string).

#[global] Instance value_eq_dec : EqDecision value.
Proof. solve_decision. Defined.

(** The exceptions that occur in the modelled code. [HTTPException] is
    FastAPI's; [IntegrityError] is the integrity-violation exception of
    the persistence library in use and [UniqueViolationError] is
    asyncpg's; [OtherError] stands for any other exception class,
    identified by its name. All of them derive from [Exception]. *)
Inductive exn : Type :=
| HTTPException (status_code : Z) (detail : string)
| TypeError (msg : string)
| ValidationError (field : string)
| IndexError
| IntegrityError (args : list string)
| UniqueViolationError (args : list string)
| OtherError (name : string).

(** Outcome of a call: an exception raised, or a value returned. *)
Definition result (A : Type) : Type := exn + A.

Definition status_of (e : exn) : option Z :=
  match e with
  | HTTPException c _ => Some c
  | _ => None
  end.

(** A call that unpacks the dict [d] as keywords and also passes the
    keyword [k] with value [v]: the keywords of the call are those of [d]
    together with [k]; a keyword given twice is a [TypeError]. The message
    is Python's, without the name of the callee in front. *)
Definition call_kwargs (d : gmap string value) (k : string) (v : value)
  : result (gmap string value) :=
  match d !! k with
  | Some _ => inl (TypeError ("got multiple values for keyword argument '" +:+ k +:+ "'"))
  | None => inr (<[k := v]> d)
  end.

(** Index normalisation of a slice bound for a sequence of length [len]
    (step 1): a negative bound counts from the end, and every bound is
    clamped to [0..len]. *)
Definition adjust_index (len i : Z) : Z :=
  if i <? 0 then Z.max 0 (i + len) else Z.min i len.

(** [l[start:stop]], and [l[start:]] when [stop] is [None]. *)
Definition slice {A : Type} (l : list A) (start : Z) (stop : option Z) : list A :=
  let len := Z.of_nat (length l) in
  let lo := adjust_index len start in
  let hi := match stop with
            | None => len
            | Some e => adjust_index len e
            end in
  take (Z.to_nat (hi - lo)) (drop (Z.to_nat lo) l).

End Py.

Import Py.

(** ** [mem.py]: the in-memory router *)

Module Mem.

(** An instance of [self.schema]: the integer primary key [id] and the
    remaining fields. *)
Record model : Type := Model {
  id : Z;
  fields : gmap string value
}.

#[global] Instance model_eq_dec : EqDecision model.
Proof. solve_decision. Defined.

(** The state of a [MemoryCRUDRouter] instance that its routes read and
    write. *)
Record MemoryCRUDRouter : Type := Router {
  pagination : bool;
  models : list model;
  _id : Z
}.

(** [fastapi_pagination]: the resolved parameters expose their raw
    [limit]/[offset] pair through [to_raw_params()]. *)
Record RawParams : Type := {
  limit : option Z;
  offset : Z
}.

Record AbstractParams : Type := {
  to_raw_params : RawParams
}.

(** The page built by [create_page(items, total, params)]. *)
Record Page : Type := create_page {
  items : list model;
  total : Z;
  params : AbstractParams
}.

Definition NOT_FOUND : exn := HTTPException 404 "Item not found".

(** Instantiating [self.schema] from the keywords [kwargs]: the schema
    has an integer field [id]; the other keywords become the other
    fields. Validation of those other fields is pydantic's and is not
    modelled. *)
Definition schema (kwargs : gmap string value) : result model :=
  match kwargs !! "id" with
  | Some (VInt n) => inr (Model n (delete "id" kwargs))
  | _ => inl (ValidationError "id")
  end.

(** [__init__]: an empty list and the counter at 1. *)
Definition init (pagination : bool) : MemoryCRUDRouter :=
  {| pagination := pagination; models := []; _id := 1 |}.

(** [_get_next_id]. *)
Definition _get_next_id (self : MemoryCRUDRouter) : Z * MemoryCRUDRouter :=
  let id_ := _id self in
  (id_, {| pagination := pagination self; models := models self; _id := _id self + 1 |}).

(** What [_get_all]'s route returns: a page when pagination is on, the
    list itself otherwise. *)
Inductive listing : Type :=
| Paged (p : Page)
| Plain (l : list model).

Definition _get_all (self : MemoryCRUDRouter) (params : AbstractParams)
  : MemoryCRUDRouter * listing :=
  if pagination self then
    let raw_params := to_raw_params params in
    let items :=
      match limit raw_params with
      | None => slice (models self) (offset raw_params) None
      | Some lim =>
          slice (models self) (offset raw_params) (Some (offset raw_params + lim))
      end in
    (self, Paged (create_page items (Z.of_nat (length (models self))) params))
  else
    (self, Plain (models self)).

(** The loop of [_get_one]. *)
Fixpoint _get_one_loop (ms : list model) (item_id : Z) : result model :=
  match ms with
  | [] => inl NOT_FOUND
  | model :: rest =>
      if bool_decide (id model = item_id) then inr model
      else _get_one_loop rest item_id
  end.

Definition _get_one (self : MemoryCRUDRouter) (item_id : Z)
  : MemoryCRUDRouter * result model :=
  (self, _get_one_loop (models self) item_id).

(** [_create]. *)
Definition _create (self : MemoryCRUDRouter) (payload : gmap string value)
  : MemoryCRUDRouter * result model :=
  let model_dict := payload in
  let '(id_, self) := _get_next_id self in
  let model_dict := <["id" := VInt id_]> model_dict in
  match schema model_dict with
  | inl e => (self, inl e)
  | inr ready_model =>
      ({| pagination := pagination self;
          models := models self ++ [ready_model];
          _id := _id self |},
       inr ready_model)
  end.

(** The loop of [_update] over [enumerate(self.models)]: [ind] is the
    index of the head of [rest] in [self.models]. *)
Fixpoint _update_loop (self : MemoryCRUDRouter) (payload : gmap string value)
    (item_id : Z) (ind : nat) (rest : list model)
  : MemoryCRUDRouter * result model :=
  match rest with
  | [] => (self, inl NOT_FOUND)
  | model_ :: rest' =>
      if bool_decide (id model_ = item_id) then
        match call_kwargs payload "id" (VInt (id model_)) with
        | inl e => (self, inl e)
        | inr kwargs =>
            match schema kwargs with
            | inl e => (self, inl e)
            | inr new =>
                let self' := {| pagination := pagination self;
                                models := <[ind := new]> (models self);
                                _id := _id self |} in
                (self', match models self' !! ind with
                        | Some m => inr m
                        | None => inl IndexError
                        end)
            end
        end
      else _update_loop self payload item_id (S ind) rest'
  end.

Definition _update (self : MemoryCRUDRouter) (payload : gmap string value)
    (item_id : Z) : MemoryCRUDRouter * result model :=
  _update_loop self payload item_id 0%nat (models self).

(** [_delete_all]. *)
Definition _delete_all (self : MemoryCRUDRouter) : MemoryCRUDRouter * unit :=
  ({| pagination := pagination self; models := []; _id := _id self |}, tt).

(** The loop of [_delete_one] over [enumerate(self.models)]. *)
Fixpoint _delete_one_loop (self : MemoryCRUDRouter) (item_id : Z)
    (ind : nat) (rest : list model) : MemoryCRUDRouter * result model :=
  match rest with
  | [] => (self, inl NOT_FOUND)
  | model :: rest' =>
      if bool_decide (id model = item_id) then
        ({| pagination := pagination self;
            models := delete ind (models self);
            _id := _id self |},
         inr model)
      else _delete_one_loop self item_id (S ind) rest'
  end.

Definition _delete_one (self : MemoryCRUDRouter) (item_id : Z)
  : MemoryCRUDRouter * result model :=
  _delete_one_loop self item_id 0%nat (models self).

(** A request to one of the six routes, and what the route answers. *)
Inductive request : Type :=
| GetAll (params : AbstractParams)
| GetOne (item_id : Z)
| Create (payload : gmap string value)
| Update (item_id : Z) (payload : gmap string value)
| DeleteAll
| DeleteOne (item_id : Z).

Inductive response : Type :=
| Listing (l : listing)
| Item (r : result model)
| NoContent.

Definition handle (self : MemoryCRUDRouter) (req : request)
  : MemoryCRUDRouter * response :=
  match req with
  | GetAll params => let '(s, l) := _get_all self params in (s, Listing l)
  | GetOne item_id => let '(s, r) := _get_one self item_id in (s, Item r)
  | Create payload => let '(s, r) := _create self payload in (s, Item r)
  | Update item_id payload => let '(s, r) := _update self payload item_id in (s, Item r)
  | DeleteAll => let '(s, _) := _delete_all self in (s, NoContent)
  | DeleteOne item_id => let '(s, r) := _delete_one self item_id in (s, Item r)
  end.

(** States reachable from a fresh router. *)
Inductive reachable : MemoryCRUDRouter -> Prop :=
| reachable_init p : reachable (init p)
| reachable_step s req : reachable s -> reachable (fst (handle s req)).


(** The identifiers handed out by the successful creates of a run, in
    order. *)
Definition created_id (req : request) (resp : response) : option Z :=
  match req, resp with
  | Create _, Item (inr m) => Some (id m)
  | _, _ => None
  end.

Fixpoint allocated (self : MemoryCRUDRouter) (reqs : list request) : list Z :=
  match reqs with
  | [] => []
  | req :: reqs' =>
      let '(s, r) := handle self req in
      match created_id req r with
      | Some n => n :: allocated s reqs'
      | None => allocated s reqs'
      end
  end.

(** *** Notions used to state the properties of the routes *)

(** The record that [_update] builds for the stored identifier [n]:
    instantiating the schema fails when the payload itself has an [id]
    keyword. *)
Definition replacement (payload : gmap string value) (n : Z) : result model :=
  match call_kwargs payload "id" (VInt n) with
  | inl e => inl e
  | inr kwargs => schema kwargs
  end.

(** No record of [ms] has the identifier [item_id]. *)
Definition absent (item_id : Z) (ms : list model) : Prop :=
  Forall (fun m => id m ≠ item_id) ms.

(** Identifiers are pairwise distinct and below the counter. *)
Definition invariant (self : MemoryCRUDRouter) : Prop :=
  NoDup (id <$> models self) /\ Forall (fun m => id m < _id self) (models self).

(** A few concrete payloads and stores. *)
Definition brown : gmap string value := {[ "color" := VStr "Brown" ]}.
Definition red_with_id : gmap string value :=
  {[ "color" := VStr "Red"; "id" := VInt 7 ]}.
Definition three_potatoes : MemoryCRUDRouter :=
  {| pagination := true;
     models := [Model 1 brown; Model 2 brown; Model 3 brown];
     _id := 4 |}.

End Mem.

(** ** [_base.py]: the routes registered by [CRUDGenerator.__init__] *)

Module Base.

(** The string operations used by [__init__], on ASCII text. *)
Definition lower_ascii (c : ascii) : ascii :=
  let n := nat_of_ascii c in
  if ((65 <=? n) && (n <=? 90))%nat then ascii_of_nat (n + 32) else c.

Fixpoint lower (s : string) : string :=
  match s with
  | EmptyString => EmptyString
  | String c s' => String (lower_ascii c) (lower s')
  end.

(** [s.replace(a, b)] for one-character [a] and [b]. *)
Fixpoint replace (a b : ascii) (s : string) : string :=
  match s with
  | EmptyString => EmptyString
  | String c s' => String (if Ascii.eqb c a then b else c) (replace a b s')
  end.

Fixpoint lstrip (a : ascii) (s : string) : string :=
  match s with
  | EmptyString => EmptyString
  | String c s' => if Ascii.eqb c a then lstrip a s' else s
  end.

(** [s.strip(a)] for a one-character [a]. *)
Definition strip (a : ascii) (s : string) : string :=
  String.rev (lstrip a (String.rev (lstrip a s))).

(** Truth value of an [Optional[str]]. *)
Definition str_truthy (o : option string) : bool :=
  match o with
  | Some (String _ _) => true
  | _ => false
  end.

(** How an [Optional[str]] is rendered inside an f-string. *)
Definition fmt (o : option string) : string :=
  match o with
  | Some s => s
  | None => "None"
  end.

(** A route flag, of type [Union[bool, DEPENDENCIES]] with
    [DEPENDENCIES = Optional[Sequence[Depends]]]; a dependency is
    identified by the name of its callable. *)
Inductive flag : Type :=
| FBool (b : bool)
| FDeps (deps : option (list string)).

(** Truth value of a flag, as tested by [if get_all_route:]. *)
Definition enabled (f : flag) : bool :=
  match f with
  | FBool b => b
  | FDeps None => false
  | FDeps (Some []) => false
  | FDeps (Some (_ :: _)) => true
  end.

(** The endpoints are the six factories of the concrete backend. *)
Inductive endpoint : Type :=
| E_get_all | E_create | E_delete_all | E_get_one | E_update | E_delete_one.

Inductive response_model : Type :=
| RM_Page | RM_List | RM_Schema.

(** What is handed to FastAPI's [add_api_route]. *)
Record route : Type := {
  path : string;
  route_endpoint : endpoint;
  methods : list string;
  route_response_model : option response_model;
  summary : option string;
  dependencies : option (list string);
  responses : option (list (Z * string));
  status_code : Z
}.

(** The arguments of [__init__]. *)
Record config : Type := {
  schema_name : string;
  cfg_prefix : option string;
  tags : option (list string);
  pagination : bool;
  get_all_route : flag;
  get_one_route : flag;
  create_route : flag;
  update_route : flag;
  delete_one_route : flag;
  delete_all_route : flag;
  cfg_path_param_name : option string;
  cfg_entity_name : option string;
  cfg_entity_name_plural : option string;
  cfg_summary_prefix : option string
}.

(** The attributes set by [__init__], and the registered routes in
    registration order. *)
Record CRUDGenerator : Type := {
  prefix : string;
  entity_name : string;
  entity_name_plural : string;
  path_param_name : string;
  summary_prefix : string;
  routes : list route
}.

Definition NOT_FOUND : exn := HTTPException 404 "Item not found".

Definition _base_path : string := "/".

(** [_add_api_route]: a boolean flag carries no dependencies; the error
    responses are keyed by status code. *)
Definition _add_api_route (self : CRUDGenerator) (path : string)
    (endpoint : endpoint) (dependencies : flag)
    (error_responses : option (list exn)) (methods : list string)
    (response_model : option response_model) (summary : option string)
    (status_code : Z) : CRUDGenerator :=
  let dependencies :=
    match dependencies with
    | FBool _ => Some []
    | FDeps d => d
    end in
  let responses :=
    match error_responses with
    | Some (e :: errs) =>
        Some (omap (fun err => match err with
                               | HTTPException c d => Some (c, d)
                               | _ => None
                               end) (e :: errs))
    | _ => None
    end in
  {| prefix := prefix self;
     entity_name := entity_name self;
     entity_name_plural := entity_name_plural self;
     path_param_name := path_param_name self;
     summary_prefix := summary_prefix self;
     routes := routes self ++
       [ {| path := path; route_endpoint := endpoint; methods := methods;
            route_response_model := response_model; summary := summary;
            dependencies := dependencies; responses := responses;
            status_code := status_code |} ] |}.

Definition HTTP_200_OK : Z := 200.
Definition HTTP_201_CREATED : Z := 201.
Definition HTTP_204_NO_CONTENT : Z := 204.

(** The path of the single-item routes. *)
Definition item_path (self : CRUDGenerator) : string :=
  "/{" +:+ path_param_name self +:+ "}/".

Definition __init__ (c : config) : CRUDGenerator :=
  let prefix :=
    lower (if str_truthy (cfg_prefix c) then fmt (cfg_prefix c) else schema_name c) in
  let prefix := _base_path +:+ strip "/" prefix in
  let entity_name :=
    if str_truthy (cfg_entity_name c) then fmt (cfg_entity_name c) else "Item" in
  let entity_name_plural :=
    if str_truthy (cfg_entity_name_plural c) then fmt (cfg_entity_name_plural c)
    else fmt (cfg_entity_name c) +:+ "s" in
  let path_param_name :=
    match cfg_path_param_name c with
    | None => replace " " "_" (lower entity_name) +:+ "_id"
    | Some n => n
    end in
  let summary_prefix :=
    if str_truthy (cfg_summary_prefix c) then fmt (cfg_summary_prefix c) +:+ " " else "" in
  let self := {| prefix := prefix; entity_name := entity_name;
                 entity_name_plural := entity_name_plural;
                 path_param_name := path_param_name;
                 summary_prefix := summary_prefix; routes := [] |} in
  let self :=
    if enabled (get_all_route c) then
      _add_api_route self "/" E_get_all (get_all_route c) None ["GET"]
        (Some (if pagination c then RM_Page else RM_List))
        (Some (summary_prefix +:+ "List " +:+ entity_name_plural))
        HTTP_200_OK
    else self in
  let self :=
    if enabled (create_route c) then
      _add_api_route self "/" E_create (create_route c) None ["POST"]
        (Some RM_Schema)
        (Some (summary_prefix +:+ "Create " +:+ entity_name))
        HTTP_201_CREATED
    else self in
  let self :=
    if enabled (delete_all_route c) then
      _add_api_route self "/" E_delete_all (delete_all_route c) None ["DELETE"]
        None
        (Some (summary_prefix +:+ "Remove All " +:+ entity_name_plural))
        HTTP_204_NO_CONTENT
    else self in
  let self :=
    if enabled (get_one_route c) then
      _add_api_route self (item_path self) E_get_one (get_one_route c)
        (Some [NOT_FOUND]) ["GET"] (Some RM_Schema)
        (Some (summary_prefix +:+ "Remove " +:+ entity_name))
        HTTP_200_OK
    else self in
  let self :=
    if enabled (update_route c) then
      _add_api_route self (item_path self) E_update (update_route c)
        (Some [NOT_FOUND]) ["PATCH"] (Some RM_Schema) None
        HTTP_200_OK
    else self in
  let self :=
    if enabled (delete_one_route c) then
      _add_api_route self (item_path self) E_delete_one (delete_one_route c)
        (Some [NOT_FOUND]) ["DELETE"] (Some RM_Schema) None
        HTTP_200_OK
    else self in
  self.

(** [get_routes]. *)
Definition get_routes : list string :=
  ["get_all"; "create"; "delete_all"; "get_one"; "update"; "delete_one"].

(** A router as the tests build it: schema [Potato], every route on. *)
Definition potato_config : config :=
  {| schema_name := "Potato"; cfg_prefix := None; tags := None;
     pagination := true;
     get_all_route := FBool true; get_one_route := FBool true;
     create_route := FBool true; update_route := FBool true;
     delete_one_route := FBool true; delete_all_route := FBool true;
     cfg_path_param_name := None; cfg_entity_name := None;
     cfg_entity_name_plural := None; cfg_summary_prefix := None |}.

(** Path, methods and status code of a registered route. *)
Definition signature (r : route) : string * list string * Z :=
  (path r, methods r, status_code r).

End Base.

(** ** The database adapters: create and update routes

    The persistence libraries are external. Their calls are computations
    over an abstract state [W] of the library that either return a value or
    raise; each adapter is given the calls it makes as a record. *)

Module Adapters.

(** Computations that read and write the library state and may raise. *)
Definition M (W A : Type) : Type := W -> result A * W.

Definition ret {W A} (a : A) : M W A := fun w => (inr a, w).

Definition raise {W A} (e : exn) : M W A := fun w => (inl e, w).

Definition bind {W A B} (m : M W A) (k : A -> M W B) : M W B :=
  fun w =>
    match m w with
    | (inl e, w') => (inl e, w')
    | (inr a, w') => k a w'
    end.

(** [try: body except ...: handler]: [handler e] is [None] when no
    [except] clause matches [e]. *)
Definition try_except {W A} (body : M W A) (handler : exn -> option (M W A))
  : M W A :=
  fun w =>
    match body w with
    | (inr a, w') => (inr a, w')
    | (inl e, w') =>
        match handler e with
        | Some h => h w'
        | None => (inl e, w')
        end
    end.

Notation "'let!' x ':=' m 'in' k" := (bind m (fun x => k))
  (at level 10, x name, m at level 100, k at level 200).
Notation "'do!' m 'in' k" := (bind m (fun _ => k))
  (at level 10, m at level 100, k at level 200).

Definition NOT_FOUND : exn := HTTPException 404 "Item not found".

(** [sep.join(l)]. *)
Fixpoint join (sep : string) (l : list string) : string :=
  match l with
  | [] => ""
  | [s] => s
  | s :: rest => s +:+ sep +:+ join sep rest
  end.

(** [e.args] of the two database exceptions. *)
Definition exn_args (e : exn) : list string :=
  match e with
  | IntegrityError a => a
  | UniqueViolationError a => a
  | _ => []
  end.

(** [CRUDGenerator._raise]: the status code is 422 whatever the
    [status_code] argument. *)
Definition _raise {W A} (e : exn) : M W A :=
  raise (HTTPException 422 (join ", " (exn_args e))).

(** An integrity violation, as sqlalchemy ([IntegrityError]) or asyncpg
    ([UniqueViolationError]) reports it. *)
Definition integrity_violation (e : exn) : bool :=
  match e with
  | IntegrityError _ | UniqueViolationError _ => true
  | _ => false
  end.

(** *** [sqlalchemy.py] *)
Module SQLAlchemy.
Section Router.
Context {W Row : Type}.

(** The ORM calls of the routes: building [self.db_model] from
    keywords, the session methods, [query(...).get], and the loop
    that assigns the payload's attributes on a row. *)
Record Session : Type := {
  db_model : gmap string value -> M W Row;
  add : Row -> M W unit;
  commit : M W unit;
  refresh : Row -> M W Row;
  rollback : M W unit;
  query_get : value -> M W (option Row);
  set_attrs : Row -> gmap string value -> M W Row
}.

Variable db : Session.
Variable _pk : string.

Definition _get_one (item_id : value) : M W Row :=
  let! model := query_get db item_id in
  match model with
  | Some model => ret model
  | None => raise NOT_FOUND
  end.

Definition _create_body (model : gmap string value) : M W Row :=
  let! row := db_model db model in
  do! add db row in
  do! commit db in
  let! row := refresh db row in
  ret row.

Definition _create (model : gmap string value) : M W Row :=
  try_except (_create_body model)
    (fun e => match e with
              | IntegrityError _ =>
                  Some (do! rollback db in
                        raise (HTTPException 422 "Key already exists"))
              | _ => None
              end).

Definition _update_body (model : gmap string value) (item_id : value)
  : M W Row :=
  let! row := _get_one item_id in
  let! row := set_attrs db row (delete _pk model) in
  do! commit db in
  let! row := refresh db row in
  ret row.

Definition _update (model : gmap string value) (item_id : value) : M W Row :=
  try_except (_update_body model item_id)
    (fun e => match e with
              | IntegrityError _ => Some (do! rollback db in _raise e)
              | _ => None
              end).
End Router.
End SQLAlchemy.

(** *** [gino_starlette.py] *)
Module Gino.
Section Router.
Context {W Row : Type}.

(** The Gino calls: [db_model.get], [db_model.create],
    [row.update(...).apply()], and the three steps of the
    [db.transaction()] context manager. *)
Record Engine : Type := {
  get : value -> M W (option Row);
  create : gmap string value -> M W Row;
  update_apply : Row -> gmap string value -> M W Row;
  tx_enter : M W unit;
  tx_commit : M W unit;
  tx_rollback : M W unit
}.

Variable db : Engine.
Variable _pk : string.

(** [async with self.db.transaction(): body]: commit when the body
    returns, roll back and re-raise when it raises. *)
Definition transaction {A} (body : M W A) : M W A :=
  do! tx_enter db in
  fun w =>
    match body w with
    | (inr a, w') => (do! tx_commit db in ret a) w'
    | (inl e, w') => (do! tx_rollback db in raise e) w'
    end.

Definition _get_one (item_id : value) : M W Row :=
  let! model := get db item_id in
  match model with
  | Some model => ret model
  | None => raise NOT_FOUND
  end.

Definition _create_body (model : gmap string value) : M W Row :=
  transaction (let! row := create db model in ret row).

Definition _create (model : gmap string value) : M W Row :=
  try_except (_create_body model)
    (fun e => if integrity_violation e
              then Some (raise (HTTPException 422 "Key already exists"))
              else None).

Definition _update_body (model : gmap string value) (item_id : value)
  : M W Row :=
  let! row := _get_one item_id in
  let! row := transaction (update_apply db row (delete _pk model)) in
  ret row.

Definition _update (model : gmap string value) (item_id : value) : M W Row :=
  try_except (_update_body model item_id)
    (fun e => if integrity_violation e then Some (_raise e) else None).
End Router.
End Gino.

(** *** [databases.py] *)
Module Databases.

(** The Python type of a value, as compared with [self._pk_type]. *)
Inductive pytype : Type := T_NoneType | T_bool | T_int | T_str.

Definition type_of (v : value) : pytype :=
  match v with
  | VNone => T_NoneType
  | VBool _ => T_bool
  | VInt _ => T_int
  | VStr _ => T_str
  end.

#[global] Instance pytype_eq_dec : EqDecision pytype.
Proof. solve_decision. Defined.

Section Router.
Context {W : Type}.

(** The driver calls: [execute] of the insert, [fetch_one] of the
    select by primary key, [fetch_one] of the update. A fetched
    record is a mapping from column names to values. *)
Record Database : Type := {
  execute_insert : gmap string value -> M W value;
  fetch_one_select : value -> M W (option (gmap string value));
  fetch_one_update : value -> gmap string value -> M W unit
}.

Variable db : Database.
Variable _pk : string.
Variable _pk_type : pytype.

(** [pydantify_record] on a single record. *)
Definition pydantify_record (r : gmap string value) : gmap string value := r.

Definition _get_one (item_id : value) : M W (gmap string value) :=
  let! model := fetch_one_select db item_id in
  match model with
  | Some model =>
      if bool_decide (model = ∅) then raise NOT_FOUND
      else ret (pydantify_record model)
  | None => raise NOT_FOUND
  end.

Definition _create_body (schema : gmap string value)
  : M W (gmap string value) :=
  let! rid := execute_insert db schema in
  let rid :=
    if bool_decide (type_of rid = _pk_type) then rid
    else default rid (schema !! _pk) in
  _get_one rid.

(** [except Exception] catches every exception. *)
Definition _create (schema : gmap string value) : M W (gmap string value) :=
  try_except (_create_body schema)
    (fun _ => Some (raise (HTTPException 422 "Key already exists"))).

Definition _update_body (item_id : value) (schema : gmap string value)
  : M W (gmap string value) :=
  do! fetch_one_update db item_id (delete _pk schema) in
  _get_one item_id.

Definition _update (item_id : value) (schema : gmap string value)
  : M W (gmap string value) :=
  try_except (_update_body item_id schema)
    (fun _ => Some (raise NOT_FOUND)).
End Router.
End Databases.

(** *** [tortoise.py] *)
Module Tortoise.
Section Router.
Context {W Row : Type}.

(** The ORM calls: building [self.db_model], [save], and the
    [filter(id=...)] query with [first] and [update]. *)
Record Model : Type := {
  db_model : gmap string value -> M W Row;
  save : Row -> M W Row;
  filter_first : value -> M W (option Row);
  filter_update : value -> gmap string value -> M W unit
}.

Variable db : Model.

Definition _get_one (item_id : value) : M W Row :=
  let! model := filter_first db item_id in
  match model with
  | Some model => ret model
  | None => raise NOT_FOUND
  end.

Definition _create (model : gmap string value) : M W Row :=
  let! row := db_model db model in
  let! row := save db row in
  ret row.

Definition _update (model : gmap string value) (item_id : value) : M W Row :=
  do! filter_update db item_id model in
  _get_one item_id.
End Router.
End Tortoise.

(** *** Concrete libraries whose write fails on a duplicate key

    The library state is the log of the calls made so far; a row is the
    mapping of its columns. *)
Module Failing.

Definition log (call : string) : M (list string) unit :=
  fun w => (inr tt, w ++ [call]).

Definition duplicate_key : exn :=
  IntegrityError ["UNIQUE constraint failed: potato.id"].

Definition failing (call : string) {A} : M (list string) A :=
  fun w => (inl duplicate_key, w ++ [call]).

Definition session : @SQLAlchemy.Session (list string) (gmap string value) :=
  {| SQLAlchemy.db_model := fun d => ret d;
     SQLAlchemy.add := fun _ => log "add";
     SQLAlchemy.commit := failing "commit";
     SQLAlchemy.refresh := fun r => ret r;
     SQLAlchemy.rollback := log "rollback";
     SQLAlchemy.query_get := fun i => ret (Some {[ "id" := i ]});
     SQLAlchemy.set_attrs := fun r d => ret (d ∪ r) |}.

Definition engine : @Gino.Engine (list string) (gmap string value) :=
  {| Gino.get := fun i => ret (Some {[ "id" := i ]});
     Gino.create := fun _ => failing "create";
     Gino.update_apply := fun _ _ => failing "apply";
     Gino.tx_enter := log "begin";
     Gino.tx_commit := log "commit";
     Gino.tx_rollback := log "rollback" |}.

Definition database : @Databases.Database (list string) :=
  {| Databases.execute_insert := fun _ => failing "execute";
     Databases.fetch_one_select := fun i => ret (Some {[ "id" := i ]});
     Databases.fetch_one_update := fun _ _ => failing "fetch_one" |}.

Definition tortoise : @Tortoise.Model (list string) (gmap string value) :=
  {| Tortoise.db_model := fun d => ret d;
     Tortoise.save := fun _ => failing "save";
     Tortoise.filter_first := fun i => ret (Some {[ "id" := i ]});
     Tortoise.filter_update := fun _ _ => failing "update" |}.

Definition potato : gmap string value :=
  {[ "id" := VInt 1; "color" := VStr "Brown" ]}.

End Failing.

End Adapters.

(** ** [mem.py]: notions used to state further properties of the routes *)

Module MemExtra.
Import Mem.

(** The records a listing carries, paged or not. *)
Definition listing_items (l : listing) : list model :=
  match l with
  | Paged p => items p
  | Plain l => l
  end.

(** Resolved parameters that ask for [size] records starting at index
    [size * k]: the [k]-th page of that size, counting from 0. *)
Definition page (size : Z) (k : nat) : AbstractParams :=
  {| to_raw_params := {| limit := Some size; offset := size * Z.of_nat k |} |}.


(** An update payload without an [id] field. *)
Definition yellow : gmap string value := {[ "color" := VStr "Yellow" ]}.

(** Identifiers grow along the list and stay below the counter. *)
Definition ordered (self : MemoryCRUDRouter) : Prop :=
  StronglySorted Z.lt (id <$> models self) /\
  Forall (fun m => id m < _id self) (models self).

End MemExtra.

(** ** [_utils.py] and the schema defaults of [CRUDGenerator.__init__] *)

Module Utils.
Import Adapters.Databases.

(** A pydantic field, as far as the code reads it: its name, its type and
    whether a value is required. *)
Record ModelField : Type := {
  name : string;
  type_ : pytype;
  required : bool
}.

(** A pydantic model class: its name and its fields in declaration
    order. *)
Record schema_cls : Type := {
  __name__ : string;
  __fields__ : list ModelField
}.

(** [get_pk_type]: the type of the field named [pk_field], [int] when the
    lookup raises [KeyError]. *)
Definition get_pk_type (schema : schema_cls) (pk_field : string) : pytype :=
  match list_find (fun f => name f = pk_field) (__fields__ schema) with
  | Some (_, f) => type_ f
  | None => T_int
  end.

(** [schema_factory]: every field but the primary key, each one required,
    under the class name followed by [name]. *)
Definition schema_factory (schema_cls : schema_cls) (pk_field_name : string)
    (name_ : string) : Utils.schema_cls :=
  let fields :=
    (fun f => {| name := name f; type_ := type_ f; required := true |}) <$>
      filter (fun f => name f ≠ pk_field_name) (__fields__ schema_cls) in
  {| __name__ := __name__ schema_cls +:+ name_; __fields__ := fields |}.

(** The keys of [model.dict()] for an instance [model] of the class. *)
Definition dict_keys (cls : schema_cls) : gset string :=
  list_to_set (name <$> __fields__ cls).


(** [CRUDGenerator.__init__]: the primary key is [id] unless the backend
    has set [_pk]; a create or update schema that is not given is made by
    [schema_factory]. *)
Definition _pk (backend_pk : option string) : string :=
  match backend_pk with
  | Some pk => pk
  | None => "id"
  end.




Definition Carrot : schema_cls :=
  {| __name__ := "Carrot";
     __fields__ := [ {| name := "color"; type_ := T_str; required := false |};
                     {| name := "id"; type_ := T_int; required := true |} ] |}.


End Utils.

(** ** [_base.py]: overriding a generated route *)

Module Overrides.
Import Base.

Definition upper_ascii (c : ascii) : ascii :=
  let n := nat_of_ascii c in
  if ((97 <=? n) && (n <=? 122))%nat then ascii_of_nat (n - 32) else c.

Fixpoint upper (s : string) : string :=
  match s with
  | EmptyString => EmptyString
  | String c s' => String (upper_ascii c) (upper s')
  end.

(** What FastAPI keeps of a registered route: its path is the router's
    prefix followed by the path given, its methods are the set of the
    given names in upper case. *)
Definition route_path (self : CRUDGenerator) (r : route) : string :=
  prefix self +:+ path r.

Definition route_methods (r : route) : gset string :=
  list_to_set (upper <$> methods r).

(** The test of [remove_api_route] on a route. *)
Definition is_target (self : CRUDGenerator) (path : string)
    (methods : list string) (r : route) : bool :=
  bool_decide (route_path self r = prefix self +:+ path) &&
  bool_decide (route_methods r = list_to_set methods).

#[global] Instance endpoint_eq_dec : EqDecision endpoint.
Proof. solve_decision. Defined.

(** Equality of two routes, which Starlette defines as equality of path,
    endpoint and methods. It is what [list.remove] compares with. *)
Definition route_eqb (r r' : route) : bool :=
  bool_decide (path r = path r') &&
  bool_decide (route_endpoint r = route_endpoint r') &&
  bool_decide (route_methods r = route_methods r').

(** [l.remove(x)]: the first element equal to [x] is taken out;
    [ValueError] when there is none. *)
Fixpoint list_remove (x : route) (l : list route) : result (list route) :=
  match l with
  | [] => inl (OtherError "ValueError")
  | y :: l' =>
      if route_eqb y x then inr l'
      else match list_remove x l' with
           | inl e => inl e
           | inr l'' => inr (y :: l'')
           end
  end.

(** The loop of [remove_api_route]. The iterator of a Python list is an
    index into the list as it is at each step: [i] is that index, and the
    loop ends when [i] is past the end. [fuel] bounds the number of steps;
    the answer is [None] when it runs out before the loop ends. *)
Fixpoint remove_loop (target : route -> bool) (fuel : nat)
    (routes : list route) (i : nat) : option (result (list route)) :=
  match routes !! i with
  | None => Some (inr routes)
  | Some route =>
      match fuel with
      | O => None
      | S fuel =>
          if target route then
            match list_remove route routes with
            | inl e => Some (inl e)
            | inr routes => remove_loop target fuel routes (S i)
            end
          else remove_loop target fuel routes (S i)
      end
  end.

Definition with_routes (self : CRUDGenerator) (rs : list route) : CRUDGenerator :=
  {| prefix := prefix self;
     entity_name := entity_name self;
     entity_name_plural := entity_name_plural self;
     path_param_name := path_param_name self;
     summary_prefix := summary_prefix self;
     routes := rs |}.

Definition remove_api_route (self : CRUDGenerator) (path : string)
    (methods : list string) : option (result CRUDGenerator) :=
  match remove_loop (is_target self path methods)
          (length (routes self)) (routes self) 0 with
  | None => None
  | Some (inl e) => Some (inl e)
  | Some (inr rs) => Some (inr (with_routes self rs))
  end.

(** The removal that each overriding method performs before it hands over
    to FastAPI's method of the same name; [api_route] takes the methods
    from its keyword arguments, [GET] alone when there are none. What
    FastAPI's method does afterwards, which may call [api_route] again, is
    not part of these. *)
Definition api_route (self : CRUDGenerator) (path : string)
    (methods : option (list string)) : option (result CRUDGenerator) :=
  remove_api_route self path
    (match methods with Some ms => ms | None => ["GET"] end).

Definition get (self : CRUDGenerator) (path : string)
  : option (result CRUDGenerator) :=
  remove_api_route self path ["Get"].

Definition post (self : CRUDGenerator) (path : string)
  : option (result CRUDGenerator) :=
  remove_api_route self path ["POST"].

Definition put (self : CRUDGenerator) (path : string)
  : option (result CRUDGenerator) :=
  remove_api_route self path ["PUT"].

Definition delete (self : CRUDGenerator) (path : string)
  : option (result CRUDGenerator) :=
  remove_api_route self path ["DELETE"].

(** *** Notions used to state the properties *)

(** The six routes [__init__] can register, each with the flag that
    decides whether it is. *)
Definition generated (c : config) : list (flag * (string * list string * Z)) :=
  let item := item_path (__init__ c) in
  [ (get_all_route c, ("/", ["GET"], 200));
    (create_route c, ("/", ["POST"], 201));
    (delete_all_route c, ("/", ["DELETE"], 204));
    (get_one_route c, (item, ["GET"], 200));
    (update_route c, (item, ["PATCH"], 200));
    (delete_one_route c, (item, ["DELETE"], 200)) ].

(** The flag that governs an endpoint. *)
Definition flag_of (c : config) (e : endpoint) : flag :=
  match e with
  | E_get_all => get_all_route c
  | E_create => create_route c
  | E_delete_all => delete_all_route c
  | E_get_one => get_one_route c
  | E_update => update_route c
  | E_delete_one => delete_one_route c
  end.

Definition single_item (e : endpoint) : bool :=
  match e with
  | E_get_one | E_update | E_delete_one => true
  | _ => false
  end.

(** A router whose single-item routes need a login and whose create route
    is switched off. *)
Definition guarded_config : config :=
  {| schema_name := "Carrot"; cfg_prefix := Some "/Carrots/"; tags := None;
     pagination := false;
     get_all_route := FBool true; get_one_route := FDeps (Some ["login"]);
     create_route := FBool false; update_route := FDeps (Some ["login"]);
     delete_one_route := FDeps (Some ["login"; "admin"]);
     delete_all_route := FDeps (Some []);
     cfg_path_param_name := Some "carrot_id"; cfg_entity_name := Some "Carrot";
     cfg_entity_name_plural := None; cfg_summary_prefix := None |}.

(** A route as [add_api_route] would store it, and a router on which the
    same POST route was added twice. *)
Definition plain_route (path : string) (e : endpoint) (method : string) : route :=
  {| path := path; route_endpoint := e; methods := [method];
     route_response_model := None; summary := None;
     dependencies := Some []; responses := None; status_code := 200 |}.

Definition doubled : CRUDGenerator :=
  with_routes (__init__ potato_config)
    [ plain_route "/" E_get_all "GET";
      plain_route "/bulk" E_create "POST";
      plain_route "/bulk" E_create "POST";
      plain_route "/" E_delete_all "DELETE" ].

(** No route that is a target is directly followed by another target. *)
Fixpoint isolated (target : route -> bool) (l : list route) : Prop :=
  match l with
  | r :: l' =>
      match l' with
      | r' :: _ => (target r = true -> target r' = false) /\ isolated target l'
      | [] => True
      end
  | [] => True
  end.

(** What [remove_api_route] compares: the path and the method set of a
    stored route, and the same read off a signature. *)
Definition key (r : route) : string * gset string := (path r, route_methods r).

Definition sig_key (s : string * list string * Z) : string * gset string :=
  (fst (fst s), list_to_set (upper <$> snd (fst s))).

End Overrides.

(** ** The database adapters: delete-one routes *)

Module AdaptersExtra.
Import Adapters.

(** Each route is given the one library call that the records of the
    create and update routes do not have: the call that deletes. *)

Module SQLAlchemy.
Section Router.
Context {W Row : Type}.
Variable db : @Adapters.SQLAlchemy.Session W Row.
(** [db.delete(db_model)]. *)
Variable delete : Row -> M W unit.

Definition _delete_one (item_id : value) : M W Row :=
  let! db_model := Adapters.SQLAlchemy._get_one db item_id in
  do! delete db_model in
  do! Adapters.SQLAlchemy.commit db in
  ret db_model.
End Router.
End SQLAlchemy.

Module Gino.
Section Router.
Context {W Row : Type}.
Variable db : @Adapters.Gino.Engine W Row.
(** [db_model.delete()]. *)
Variable delete : Row -> M W unit.

Definition _delete_one (item_id : value) : M W Row :=
  let! db_model := Adapters.Gino._get_one db item_id in
  do! delete db_model in
  ret db_model.
End Router.
End Gino.

Module Databases.
Section Router.
Context {W : Type}.
Variable db : @Adapters.Databases.Database W.
(** [db.execute] of the delete by primary key. *)
Variable execute_delete : value -> M W unit.

Definition _delete_one_body (item_id : value) : M W (gmap string value) :=
  let! row := Adapters.Databases._get_one db item_id in
  do! execute_delete item_id in
  ret row.

Definition _delete_one (item_id : value) : M W (gmap string value) :=
  try_except (_delete_one_body item_id)
    (fun _ => Some (raise NOT_FOUND)).
End Router.
End Databases.

Module Tortoise.
Section Router.
Context {W Row : Type}.
Variable db : @Adapters.Tortoise.Model W Row.
(** [filter(id=item_id).delete()]. *)
Variable filter_delete : value -> M W unit.

Definition _delete_one (item_id : value) : M W Row :=
  let! model := Adapters.Tortoise._get_one db item_id in
  do! filter_delete item_id in
  ret model.
End Router.
End Tortoise.

(** *** Concrete libraries that hold no row

    As in [Failing], the library state is the log of the calls made. *)
Module Missing.
Import Failing.

Definition logged {A} (call : string) (a : A) : M (list string) A :=
  fun w => (inr a, w ++ [call]).

Definition session : @Adapters.SQLAlchemy.Session (list string) (gmap string value) :=
  {| Adapters.SQLAlchemy.db_model := fun d => ret d;
     Adapters.SQLAlchemy.add := fun _ => log "add";
     Adapters.SQLAlchemy.commit := log "commit";
     Adapters.SQLAlchemy.refresh := fun r => logged "refresh" r;
     Adapters.SQLAlchemy.rollback := log "rollback";
     Adapters.SQLAlchemy.query_get := fun _ => logged "get" None;
     Adapters.SQLAlchemy.set_attrs := fun r d => logged "setattr" (d ∪ r) |}.

Definition engine : @Adapters.Gino.Engine (list string) (gmap string value) :=
  {| Adapters.Gino.get := fun _ => logged "get" None;
     Adapters.Gino.create := fun d => logged "create" d;
     Adapters.Gino.update_apply := fun r d => logged "apply" (d ∪ r);
     Adapters.Gino.tx_enter := log "begin";
     Adapters.Gino.tx_commit := log "commit";
     Adapters.Gino.tx_rollback := log "rollback" |}.

Definition database : @Adapters.Databases.Database (list string) :=
  {| Adapters.Databases.execute_insert := fun _ => logged "insert" (VInt 1);
     Adapters.Databases.fetch_one_select := fun _ => logged "select" None;
     Adapters.Databases.fetch_one_update := fun _ _ => log "update" |}.

Definition tortoise : @Adapters.Tortoise.Model (list string) (gmap string value) :=
  {| Adapters.Tortoise.db_model := fun d => ret d;
     Adapters.Tortoise.save := fun r => logged "save" r;
     Adapters.Tortoise.filter_first := fun _ => logged "first" None;
     Adapters.Tortoise.filter_update := fun _ _ => log "update" |}.

Definition delete_row : gmap string value -> M (list string) unit :=
  fun _ => log "delete".

Definition delete_by_id : value -> M (list string) unit :=
  fun _ => log "delete".

End Missing.

End AdaptersExtra.

(** * Properties of the in-memory router *)

Module MemFacts.
Import Mem.

(** ** Building a record *)

Lemma schema_insert_id (payload : gmap string value) (n : Z) :
  schema (<["id" := VInt n]> payload) = inr (Model n (delete "id" payload)).
Proof.
  unfold schema. rewrite lookup_insert_eq. by rewrite delete_insert_eq.
Qed.


Lemma replacement_with_id payload n v :
  payload !! "id" = Some v ->
  replacement payload n =
    inl (TypeError "got multiple values for keyword argument 'id'").
Proof. intros Hp. unfold replacement, call_kwargs. by rewrite Hp. Qed.

Lemma replacement_id payload n new :
  replacement payload n = inr new -> id new = n.
Proof.
  unfold replacement, call_kwargs.
  destruct (payload !! "id") eqn:Hp; [done|].
  rewrite schema_insert_id. by intros [= <-].
Qed.

(** ** Scanning the list for an identifier *)

(** Either no record has the identifier, or the list splits at the first
    record that has it. *)
Lemma first_match (item_id : Z) (ms : list model) :
  absent item_id ms \/
  exists l1 m l2, ms = l1 ++ m :: l2 /\ absent item_id l1 /\ id m = item_id.
Proof.
  induction ms as [|a ms IH].
  - left. constructor.
  - destruct (decide (id a = item_id)) as [Ha|Ha].
    + right. exists [], a, ms. repeat split; [constructor|done].
    + destruct IH as [IH|(l1 & m & l2 & -> & Hl1 & Hm)].
      * left. by constructor.
      * right. exists (a :: l1), m, l2. repeat split; [by constructor|done].
Qed.

Lemma absent_not_elem item_id ms m :
  absent item_id ms -> m ∈ ms -> id m ≠ item_id.
Proof. intros Ha Hin. by eapply Forall_forall in Ha. Qed.

Lemma absent_iff item_id ms :
  absent item_id ms <-> ~ exists m, m ∈ ms /\ id m = item_id.
Proof.
  split.
  - intros Ha (m & Hin & Hm). by eapply absent_not_elem.
  - intros Hno. apply Forall_forall. intros m Hin Hm. apply Hno. eauto.
Qed.

Lemma _get_one_loop_miss item_id ms :
  absent item_id ms -> _get_one_loop ms item_id = inl NOT_FOUND.
Proof.
  induction 1 as [|a ms Ha _ IH]; simpl; [done|].
  by rewrite bool_decide_eq_false_2.
Qed.

Lemma _get_one_loop_hit l1 m l2 :
  absent (id m) l1 -> _get_one_loop (l1 ++ m :: l2) (id m) = inr m.
Proof.
  induction 1 as [|a l1 Ha _ IH]; simpl.
  - by rewrite bool_decide_eq_true_2.
  - by rewrite bool_decide_eq_false_2.
Qed.

Lemma _update_loop_miss self payload item_id ind rest :
  absent item_id rest ->
  _update_loop self payload item_id ind rest = (self, inl NOT_FOUND).
Proof.
  intros Ha. revert ind.
  induction Ha as [|a rest Ha _ IH]; intros ind; simpl; [done|].
  by rewrite bool_decide_eq_false_2.
Qed.

Lemma _update_loop_hit self payload pre l1 m l2 :
  models self = pre ++ l1 ++ m :: l2 ->
  absent (id m) l1 ->
  _update_loop self payload (id m) (length pre) (l1 ++ m :: l2) =
    match replacement payload (id m) with
    | inl e => (self, inl e)
    | inr new =>
        ({| pagination := pagination self;
            models := pre ++ l1 ++ new :: l2;
            _id := _id self |}, inr new)
    end.
Proof.
  intros Hms Ha. revert pre Hms.
  induction Ha as [|a l1 Ha _ IH]; intros pre Hms; simpl in *.
  - rewrite bool_decide_eq_true_2 by done.
    unfold replacement.
    destruct (call_kwargs payload "id" (VInt (id m))) as [e|kwargs]; [done|].
    destruct (schema kwargs) as [e|new]; [done|].
    rewrite Hms, insert_app_r_alt by lia.
    rewrite Nat.sub_diag. simpl.
    by rewrite list_lookup_middle.
  - rewrite bool_decide_eq_false_2 by done.
    specialize (IH (pre ++ [a])).
    rewrite length_app in IH. simpl in IH.
    rewrite Nat.add_1_r in IH.
    rewrite IH by (by rewrite <- app_assoc).
    destruct (replacement payload (id m)); [done|].
    by rewrite <- app_assoc.
Qed.

Lemma _delete_one_loop_miss self item_id ind rest :
  absent item_id rest ->
  _delete_one_loop self item_id ind rest = (self, inl NOT_FOUND).
Proof.
  intros Ha. revert ind.
  induction Ha as [|a rest Ha _ IH]; intros ind; simpl; [done|].
  by rewrite bool_decide_eq_false_2.
Qed.

Lemma _delete_one_loop_hit self pre l1 m l2 :
  models self = pre ++ l1 ++ m :: l2 ->
  absent (id m) l1 ->
  _delete_one_loop self (id m) (length pre) (l1 ++ m :: l2) =
    ({| pagination := pagination self;
        models := pre ++ l1 ++ l2;
        _id := _id self |}, inr m).
Proof.
  intros Hms Ha. revert pre Hms.
  induction Ha as [|a l1 Ha _ IH]; intros pre Hms; simpl in *.
  - rewrite bool_decide_eq_true_2 by done.
    by rewrite Hms, delete_middle.
  - rewrite bool_decide_eq_false_2 by done.
    specialize (IH (pre ++ [a])).
    rewrite length_app in IH. simpl in IH.
    rewrite Nat.add_1_r in IH.
    rewrite IH by (by rewrite <- app_assoc).
    by rewrite <- app_assoc.
Qed.

End MemFacts.

Module MemSpec.
Import Mem MemFacts.

(** ** The routes, case by case *)

Lemma _create_eq self payload :
  _create self payload =
    ({| pagination := pagination self;
        models := models self ++ [Model (_id self) (delete "id" payload)];
        _id := _id self + 1 |},
     inr (Model (_id self) (delete "id" payload))).
Proof. unfold _create. simpl. by rewrite schema_insert_id. Qed.

Lemma _get_one_miss self item_id :
  absent item_id (models self) -> _get_one self item_id = (self, inl NOT_FOUND).
Proof. intros Ha. unfold _get_one. by rewrite _get_one_loop_miss. Qed.

Lemma _get_one_hit self l1 m l2 :
  models self = l1 ++ m :: l2 -> absent (id m) l1 ->
  _get_one self (id m) = (self, inr m).
Proof. intros Hms Ha. unfold _get_one. by rewrite Hms, _get_one_loop_hit. Qed.

Lemma _update_miss self payload item_id :
  absent item_id (models self) ->
  _update self payload item_id = (self, inl NOT_FOUND).
Proof. apply _update_loop_miss. Qed.

Lemma _update_hit self payload l1 m l2 :
  models self = l1 ++ m :: l2 -> absent (id m) l1 ->
  _update self payload (id m) =
    match replacement payload (id m) with
    | inl e => (self, inl e)
    | inr new =>
        ({| pagination := pagination self;
            models := l1 ++ new :: l2;
            _id := _id self |}, inr new)
    end.
Proof.
  intros Hms Ha. unfold _update. rewrite Hms.
  by apply (_update_loop_hit self payload []).
Qed.

Lemma _delete_one_miss self item_id :
  absent item_id (models self) ->
  _delete_one self item_id = (self, inl NOT_FOUND).
Proof. apply _delete_one_loop_miss. Qed.

Lemma _delete_one_hit self l1 m l2 :
  models self = l1 ++ m :: l2 -> absent (id m) l1 ->
  _delete_one self (id m) =
    ({| pagination := pagination self; models := l1 ++ l2; _id := _id self |},
     inr m).
Proof.
  intros Hms Ha. unfold _delete_one. rewrite Hms.
  by apply (_delete_one_loop_hit self []).
Qed.

Lemma _get_all_state self params : fst (_get_all self params) = self.
Proof. unfold _get_all. by destruct (pagination self). Qed.

(** ** Not found *)

(** Get-one answers 404 exactly when no stored record has the
    identifier, and otherwise returns a record with that identifier. *)
Lemma _get_one_not_found_iff self item_id :
  snd (_get_one self item_id) = inl NOT_FOUND <-> absent item_id (models self).
Proof.
  destruct (first_match item_id (models self)) as [Ha|(l1 & m & l2 & Hms & Ha & <-)].
  - by rewrite _get_one_miss.
  - rewrite (_get_one_hit _ _ _ _ Hms Ha). simpl. split; [done|].
    intros Hno. exfalso. eapply (absent_not_elem _ _ m Hno); [|done].
    rewrite Hms. set_solver.
Qed.


(** The same for delete-one. *)
Lemma _delete_one_not_found_iff self item_id :
  snd (_delete_one self item_id) = inl NOT_FOUND <-> absent item_id (models self).
Proof.
  destruct (first_match item_id (models self)) as [Ha|(l1 & m & l2 & Hms & Ha & <-)].
  - by rewrite _delete_one_miss.
  - rewrite (_delete_one_hit _ _ _ _ Hms Ha). simpl. split; [done|].
    intros Hno. exfalso. eapply (absent_not_elem _ _ m Hno); [|done].
    rewrite Hms. set_solver.
Qed.


(** Update answers 404 exactly when no stored record has the
    identifier. *)
Lemma _update_not_found_iff self payload item_id :
  snd (_update self payload item_id) = inl NOT_FOUND <->
  absent item_id (models self).
Proof.
  destruct (first_match item_id (models self)) as [Ha|(l1 & m & l2 & Hms & Ha & <-)].
  - by rewrite _update_miss.
  - rewrite (_update_hit _ payload _ _ _ Hms Ha). split.
    + unfold replacement, call_kwargs.
      destruct (payload !! "id"); simpl; [done|].
      by rewrite schema_insert_id.
    + intros Hno. exfalso. eapply (absent_not_elem _ _ m Hno); [|done].
      rewrite Hms. set_solver.
Qed.



(** ** Creation *)


(** ** The invariant *)

Lemma invariant_init p : invariant (init p).
Proof. split; simpl; constructor. Qed.

Lemma invariant_create self payload :
  invariant self -> invariant (fst (_create self payload)).
Proof.
  intros [Hnd Hlt]. rewrite _create_eq. split; simpl.
  - rewrite fmap_app. simpl. apply NoDup_app. repeat split.
    + done.
    + intros n Hn Hn'. apply list_elem_of_singleton in Hn'. subst n.
      apply list_elem_of_fmap in Hn as (m & Hm & Hin).
      eapply Forall_forall in Hlt; [|done]. simpl in Hlt. lia.
    + apply NoDup_singleton.
  - apply Forall_app. split.
    + eapply Forall_impl; [done|]. simpl. intros; lia.
    + repeat constructor. simpl. lia.
Qed.

Lemma invariant_update self payload item_id :
  invariant self -> invariant (fst (_update self payload item_id)).
Proof.
  intros [Hnd Hlt].
  destruct (first_match item_id (models self)) as [Ha|(l1 & m & l2 & Hms & Ha & <-)].
  - by rewrite _update_miss.
  - rewrite (_update_hit _ payload _ _ _ Hms Ha).
    destruct (replacement payload (id m)) as [e|new] eqn:Hr; [done|].
    apply replacement_id in Hr.
    rewrite Hms in Hnd, Hlt. split; simpl.
    + rewrite fmap_app, fmap_cons, Hr.
      by rewrite fmap_app, fmap_cons in Hnd.
    + apply Forall_app in Hlt as [H1 H2].
      apply Forall_cons in H2 as [Hm H2].
      apply Forall_app. split; [done|]. constructor; [|done].
      simpl. by rewrite Hr.
Qed.

Lemma invariant_delete_one self item_id :
  invariant self -> invariant (fst (_delete_one self item_id)).
Proof.
  intros [Hnd Hlt].
  destruct (first_match item_id (models self)) as [Ha|(l1 & m & l2 & Hms & Ha & <-)].
  - by rewrite _delete_one_miss.
  - rewrite (_delete_one_hit _ _ _ _ Hms Ha).
    rewrite Hms in Hnd, Hlt. split; simpl.
    + rewrite fmap_app, fmap_cons in Hnd. rewrite fmap_app.
      apply NoDup_app in Hnd as (H1 & H2 & H3).
      apply NoDup_cons in H3 as [_ H3].
      apply NoDup_app. repeat split; [done| |done].
      intros n Hn Hn'. apply (H2 n Hn). by right.
    + apply Forall_app in Hlt as [H1 H2].
      apply Forall_cons in H2 as [_ H2].
      by apply Forall_app.
Qed.

Lemma invariant_handle self req :
  invariant self -> invariant (fst (handle self req)).
Proof.
  intros Hinv. destruct req as [params|i|p|i p| |i]; simpl.
  - pose proof (_get_all_state self params) as Hs.
    destruct (_get_all self params). simpl in *. by subst.
  - done.
  - apply (invariant_create self p) in Hinv. by destruct (_create self p).
  - apply (invariant_update self p i) in Hinv. by destruct (_update self p i).
  - destruct Hinv. split; simpl; constructor.
  - apply (invariant_delete_one self i) in Hinv. by destruct (_delete_one self i).
Qed.

(** C1. In every state reached from a fresh router by any sequence of
    requests (create, update, delete-one, delete-all, and the two reads),
    the identifiers of the stored records are pairwise distinct and each
    of them is strictly below the counter [_id]. *)
Theorem reachable_ids_distinct_below_counter (self : MemoryCRUDRouter) :
  reachable self ->
  NoDup (id <$> models self) /\ Forall (fun m => id m < _id self) (models self).
Proof.
  induction 1 as [p|s req _ IH].
  - apply invariant_init.
  - by apply invariant_handle.
Qed.

Lemma reachable_ids_distinct_below_counter_witness :
  let s := fst (handle (fst (handle (init false) (Create brown))) (Create red_with_id)) in
  reachable s /\
  NoDup (id <$> models s) /\ Forall (fun m => id m < _id s) (models s).
Proof.
  simpl. split.
  - apply (reachable_step _ (Create red_with_id)).
    apply (reachable_step _ (Create brown)).
    apply reachable_init.
  - apply reachable_ids_distinct_below_counter.
    apply (reachable_step _ (Create red_with_id)).
    apply (reachable_step _ (Create brown)).
    apply reachable_init.
Defined.

(** ** Update with an [id] in the payload *)

(** C3. Update of a stored identifier with a payload that itself has an
    [id] field: the store [three_potatoes] holds a record with identifier
    2, and the update of 2 with [red_with_id] neither answers 404 nor
    returns a record; it raises the [TypeError] of the duplicated
    keyword. Get-one and delete-one of the same identifier return the
    record. *)
Theorem update_stored_id_raises_type_error :
  (exists m, m ∈ models three_potatoes /\ id m = 2) /\
  snd (_update three_potatoes red_with_id 2) =
    inl (TypeError "got multiple values for keyword argument 'id'") /\
  snd (_get_one three_potatoes 2) = inr (Model 2 brown) /\
  snd (_delete_one three_potatoes 2) = inr (Model 2 brown).
Proof.
  split; [|by vm_compute].
  exists (Model 2 brown). split; [|done].
  unfold three_potatoes. simpl. set_solver.
Qed.

(** C4. When the payload has an [id] field and the identifier is stored,
    update replaces nothing: it raises the [TypeError] of the duplicated
    keyword and the store is left as it was. *)
Theorem update_with_id_payload_replaces_nothing (self : MemoryCRUDRouter)
    (payload : gmap string value) (item_id : Z) (v : value) :
  payload !! "id" = Some v ->
  (exists m, m ∈ models self /\ id m = item_id) ->
  _update self payload item_id =
    (self, inl (TypeError "got multiple values for keyword argument 'id'")).
Proof.
  intros Hp Hex.
  destruct (first_match item_id (models self)) as [Ha|(l1 & m & l2 & Hms & Ha & <-)].
  - exfalso. by apply absent_iff in Ha.
  - rewrite (_update_hit _ payload _ _ _ Hms Ha).
    by rewrite (replacement_with_id _ _ v).
Qed.

Lemma update_with_id_payload_replaces_nothing_witness :
  red_with_id !! "id" = Some (VInt 7) /\
  (exists m, m ∈ models three_potatoes /\ id m = 2) /\
  _update three_potatoes red_with_id 2 =
    (three_potatoes, inl (TypeError "got multiple values for keyword argument 'id'")).
Proof.
  assert (H1 : red_with_id !! "id" = Some (VInt 7)) by reflexivity.
  assert (H2 : exists m, m ∈ models three_potatoes /\ id m = 2).
  { exists (Model 2 brown). split; [|reflexivity].
    unfold three_potatoes. simpl. set_solver. }
  split; [exact H1|]. split; [exact H2|].
  exact (update_with_id_payload_replaces_nothing
           three_potatoes red_with_id 2 (VInt 7) H1 H2).
Defined.

(** ** Listing *)

Lemma slice_from {A} (l : list A) (start : Z) :
  0 <= start -> slice l start None = drop (Z.to_nat start) l.
Proof.
  intros Hs. unfold slice, adjust_index.
  destruct (Z.ltb_spec start 0) as [?|_]; [lia|].
  destruct (Z_le_gt_dec (Z.of_nat (length l)) start) as [Hge|Hlt].
  - rewrite Z.min_r by lia. rewrite Nat2Z.id.
    rewrite !drop_ge by lia. by rewrite take_nil.
  - rewrite Z.min_l by lia. apply take_ge. rewrite length_drop. lia.
Qed.

Lemma slice_from_to {A} (l : list A) (start len : Z) :
  0 <= start -> 0 <= len ->
  slice l start (Some (start + len)) =
    take (Z.to_nat len) (drop (Z.to_nat start) l).
Proof.
  intros Hs Hl. unfold slice, adjust_index.
  destruct (Z.ltb_spec start 0) as [?|_]; [lia|].
  destruct (Z.ltb_spec (start + len) 0) as [?|_]; [lia|].
  destruct (Z_le_gt_dec (Z.of_nat (length l)) start) as [Hge|Hlt].
  - rewrite (Z.min_r start) by lia. rewrite Nat2Z.id.
    rewrite !drop_ge by lia. by rewrite !take_nil.
  - rewrite (Z.min_l start) by lia.
    destruct (Z_le_gt_dec (start + len) (Z.of_nat (length l))) as [Hin|Hout].
    + rewrite Z.min_l by lia. f_equal. lia.
    + rewrite Z.min_r by lia.
      rewrite !take_ge; [done| |]; rewrite length_drop; lia.
Qed.

(** C5. With pagination on and a resolved offset and limit that are not
    negative, the list route returns the page whose items are the
    contiguous run of the list starting at index [offset] and of length
    at most [limit] (the whole suffix from [offset] when there is no
    limit) and whose total is the length of the whole list; the store is
    unchanged. *)
Theorem get_all_paginated_slice (self : MemoryCRUDRouter)
    (params : AbstractParams) :
  pagination self = true ->
  0 <= offset (to_raw_params params) ->
  (forall lim, limit (to_raw_params params) = Some lim -> 0 <= lim) ->
  let start := Z.to_nat (offset (to_raw_params params)) in
  let items :=
    match limit (to_raw_params params) with
    | None => drop start (models self)
    | Some lim => take (Z.to_nat lim) (drop start (models self))
    end in
  _get_all self params =
    (self, Paged (create_page items (Z.of_nat (length (models self))) params)) /\
  (forall lim, limit (to_raw_params params) = Some lim ->
               (length items <= Z.to_nat lim)%nat).
Proof.
  intros Hpag Hoff Hlim. simpl. split.
  - unfold _get_all. rewrite Hpag.
    destruct (limit (to_raw_params params)) as [lim|].
    + rewrite slice_from_to; [done|done|by apply Hlim].
    + by rewrite slice_from.
  - intros lim ->. rewrite length_take. lia.
Qed.

Lemma get_all_paginated_slice_witness :
  let params := {| to_raw_params := {| limit := Some 1; offset := 1 |} |} in
  _get_all three_potatoes params =
    (three_potatoes, Paged (create_page [Model 2 brown] 3 params)).
Proof.
  simpl.
  refine (proj1 (get_all_paginated_slice three_potatoes
            {| to_raw_params := {| limit := Some 1; offset := 1 |} |} _ _ _)).
  - reflexivity.
  - simpl. lia.
  - simpl. intros lim [= <-]. lia.
Defined.

(** A negative offset counts from the end of the list: such a pair is
    not a slice "from index offset". *)
Example get_all_negative_offset :
  snd (_get_all three_potatoes
         {| to_raw_params := {| limit := None; offset := -1 |} |})
  = Paged (create_page [Model 3 brown] 3
             {| to_raw_params := {| limit := None; offset := -1 |} |}).
Proof. reflexivity. Qed.

(** ** Deletion *)

(** C6. When some stored record has the identifier, delete-one removes
    the first such record in list order and returns it; the records
    before and after it keep their order, and the counter is unchanged.
    When identifiers are pairwise distinct, no other record has the
    identifier. *)
Theorem delete_one_removes_first_match (self : MemoryCRUDRouter) (item_id : Z) :
  (exists m, m ∈ models self /\ id m = item_id) ->
  exists l1 m l2,
    models self = l1 ++ m :: l2 /\
    absent item_id l1 /\
    id m = item_id /\
    _delete_one self item_id =
      ({| pagination := pagination self; models := l1 ++ l2; _id := _id self |},
       inr m) /\
    (NoDup (id <$> models self) -> absent item_id (l1 ++ l2)).
Proof.
  intros Hex.
  destruct (first_match item_id (models self)) as [Ha|(l1 & m & l2 & Hms & Ha & <-)].
  - exfalso. by apply absent_iff in Ha.
  - exists l1, m, l2. repeat split; try done.
    + by apply _delete_one_hit.
    + rewrite Hms, fmap_app, fmap_cons. intros Hnd.
      apply NoDup_app in Hnd as (_ & _ & Hnd).
      apply NoDup_cons in Hnd as [Hm _].
      apply Forall_app. split; [done|].
      apply Forall_forall. intros x Hx Hid. apply Hm.
      rewrite <- Hid. apply list_elem_of_fmap. eauto.
Qed.

Lemma delete_one_removes_first_match_witness :
  (exists m, m ∈ models three_potatoes /\ id m = 2) /\
  exists l1 m l2,
    models three_potatoes = l1 ++ m :: l2 /\
    absent 2 l1 /\
    id m = 2 /\
    _delete_one three_potatoes 2 =
      ({| pagination := true; models := l1 ++ l2; _id := 4 |}, inr m) /\
    (NoDup (id <$> models three_potatoes) -> absent 2 (l1 ++ l2)).
Proof.
  assert (H : exists m, m ∈ models three_potatoes /\ id m = 2).
  { exists (Model 2 brown). split; [|reflexivity].
    unfold three_potatoes. simpl. set_solver. }
  split; [exact H|].
  exact (delete_one_removes_first_match three_potatoes 2 H).
Defined.

(** ** Errors leave the store alone *)

(** C9. Whenever a route answers with the 404 not-found exception (which
    only get-one, update and delete-one do), the list of models and the
    counter are the same after the request as before it. *)
Theorem not_found_leaves_store_unchanged (self : MemoryCRUDRouter)
    (req : request) :
  snd (handle self req) = Item (inl NOT_FOUND) ->
  fst (handle self req) = self.
Proof.
  destruct req as [params|i|p|i p| |i]; simpl.
  - by destruct (_get_all self params).
  - done.
  - by rewrite _create_eq.
  - intros H.
    destruct (first_match i (models self)) as [Ha|(l1 & m & l2 & Hms & Ha & <-)].
    + by rewrite _update_miss.
    + rewrite (_update_hit _ p _ _ _ Hms Ha) in *.
      destruct (replacement p (id m)) as [e|new]; [done|].
      simpl in H. congruence.
  - done.
  - intros H.
    destruct (first_match i (models self)) as [Ha|(l1 & m & l2 & Hms & Ha & <-)].
    + by rewrite _delete_one_miss.
    + rewrite (_delete_one_hit _ _ _ _ Hms Ha) in *.
      simpl in H. congruence.
Qed.

Lemma not_found_leaves_store_unchanged_witness :
  snd (handle three_potatoes (DeleteOne 9)) = Item (inl NOT_FOUND) /\
  fst (handle three_potatoes (DeleteOne 9)) = three_potatoes /\
  fst (handle three_potatoes (Update 9 brown)) = three_potatoes /\
  fst (handle three_potatoes (GetOne 9)) = three_potatoes.
Proof.
  assert (H : snd (handle three_potatoes (DeleteOne 9)) = Item (inl NOT_FOUND))
    by reflexivity.
  split; [exact H|]. split; [|split].
  - exact (not_found_leaves_store_unchanged three_potatoes (DeleteOne 9) H).
  - apply not_found_leaves_store_unchanged. reflexivity.
  - apply not_found_leaves_store_unchanged. reflexivity.
Defined.

(** ** Identifiers are never reused *)

Lemma handle_counter_mono self req : _id self <= _id (fst (handle self req)).
Proof.
  destruct req as [params|i|p|i p| |i]; simpl; try lia.
  - pose proof (_get_all_state self params) as Hs.
    destruct (_get_all self params). simpl in *. subst. lia.
  - rewrite _create_eq. simpl. lia.
  - destruct (first_match i (models self)) as [Ha|(l1 & m & l2 & Hms & Ha & <-)].
    + rewrite _update_miss by done. simpl. lia.
    + rewrite (_update_hit _ p _ _ _ Hms Ha).
      destruct (replacement p (id m)); simpl; lia.
  - destruct (first_match i (models self)) as [Ha|(l1 & m & l2 & Hms & Ha & <-)].
    + rewrite _delete_one_miss by done. simpl. lia.
    + rewrite (_delete_one_hit _ _ _ _ Hms Ha). simpl. lia.
Qed.

(** A create is the only request that hands out an identifier, and it
    hands out the counter and moves it on. *)
Lemma handle_created_id self req n :
  created_id req (snd (handle self req)) = Some n ->
  n = _id self /\ _id (fst (handle self req)) = _id self + 1.
Proof.
  destruct req as [params|i|p|i p| |i]; simpl.
  - by destruct (_get_all self params).
  - done.
  - rewrite _create_eq. simpl. by intros [= <-].
  - by destruct (_update self p i).
  - done.
  - by destruct (_delete_one self i).
Qed.

Lemma allocated_cons self req reqs :
  allocated self (req :: reqs) =
    match created_id req (snd (handle self req)) with
    | Some n => n :: allocated (fst (handle self req)) reqs
    | None => allocated (fst (handle self req)) reqs
    end.
Proof. simpl. by destruct (handle self req). Qed.

Lemma allocated_fresh reqs : forall self,
  Forall (fun n => _id self <= n) (allocated self reqs) /\
  NoDup (allocated self reqs).
Proof.
  induction reqs as [|req reqs IH]; intros self.
  - split; constructor.
  - rewrite allocated_cons.
    destruct (IH (fst (handle self req))) as [Hge Hnd].
    pose proof (handle_counter_mono self req) as Hmono.
    destruct (created_id req (snd (handle self req))) as [n|] eqn:Hc.
    + apply handle_created_id in Hc as [-> Hnext]. split.
      * constructor; [lia|].
        eapply Forall_impl; [done|]. simpl. intros; lia.
      * constructor; [|done].
        intros Hin. eapply Forall_forall in Hge; [|done]. simpl in Hge. lia.
    + split; [|done].
      eapply Forall_impl; [done|]. simpl. intros; lia.
Qed.

(** C10. Delete-all empties the list and keeps the counter; and along any
    sequence of requests to a router, starting from any state, the
    identifiers handed out by create are pairwise distinct, whatever
    deletions happen in between. *)
Theorem delete_all_keeps_counter_ids_never_reused :
  (forall self,
     _delete_all self =
       ({| pagination := pagination self; models := []; _id := _id self |}, tt)) /\
  (forall self reqs, NoDup (allocated self reqs)) /\
  (forall self payload payload',
     let s1 := fst (_create self payload) in
     let s2 := fst (_delete_all s1) in
     exists m m',
       snd (_create self payload) = inr m /\
       snd (_create s2 payload') = inr m' /\
       id m < id m').
Proof.
  split; [done|]. split.
  - intros self reqs. apply allocated_fresh.
  - intros self payload payload'. simpl.
    rewrite !_create_eq. simpl. do 2 eexists.
    repeat split. simpl. lia.
Qed.

End MemSpec.

(** * Properties of route registration *)

Module BaseSpec.
Import Base.

Lemma _add_api_route_routes self path endpoint deps errs methods rm summary code :
  signature <$> routes
    (_add_api_route self path endpoint deps errs methods rm summary code) =
  (signature <$> routes self) ++ [(path, methods, code)].
Proof. unfold _add_api_route. simpl. by rewrite fmap_app. Qed.

Lemma _add_api_route_path_param self path endpoint deps errs methods rm summary code :
  path_param_name
    (_add_api_route self path endpoint deps errs methods rm summary code) =
  path_param_name self.
Proof. done. Qed.

(** The default names, as the tests expect them in the OpenAPI paths. *)
Example potato_paths :
  prefix (__init__ potato_config) = "/potato" /\
  path_param_name (__init__ potato_config) = "item_id".
Proof. split; reflexivity. Qed.

(** C7. A router built with all six route flags enabled registers
    exactly six routes, in this order: GET, POST and DELETE on ["/"] with
    status codes 200, 201 and 204, then GET, PATCH and DELETE on the
    single-item path, each with status code 200; the single-item path is
    the router's path parameter name between braces and slashes. *)
Theorem all_flags_register_six_routes (c : config) :
  enabled (get_all_route c) = true ->
  enabled (create_route c) = true ->
  enabled (delete_all_route c) = true ->
  enabled (get_one_route c) = true ->
  enabled (update_route c) = true ->
  enabled (delete_one_route c) = true ->
  let self := __init__ c in
  let item := "/{" +:+ path_param_name self +:+ "}/" in
  signature <$> routes self =
    [ ("/", ["GET"], 200); ("/", ["POST"], 201); ("/", ["DELETE"], 204);
      (item, ["GET"], 200); (item, ["PATCH"], 200); (item, ["DELETE"], 200) ].
Proof.
  intros H1 H2 H3 H4 H5 H6. unfold __init__.
  rewrite H1, H2, H3, H4, H5, H6. reflexivity.
Qed.

Lemma all_flags_register_six_routes_witness :
  signature <$> routes (__init__ potato_config) =
    [ ("/", ["GET"], 200); ("/", ["POST"], 201); ("/", ["DELETE"], 204);
      ("/{item_id}/", ["GET"], 200); ("/{item_id}/", ["PATCH"], 200);
      ("/{item_id}/", ["DELETE"], 200) ].
Proof.
  exact (all_flags_register_six_routes potato_config
           eq_refl eq_refl eq_refl eq_refl eq_refl eq_refl).
Defined.

(** A flag given as an empty dependency list is false, and so is [None]:
    the route is then not registered. *)
Example empty_dependencies_disable :
  enabled (FDeps (Some [])) = false /\ enabled (FDeps None) = false.
Proof. done. Qed.

End BaseSpec.

(** * Properties of the error translation of the adapters *)

Module AdaptersSpec.
Import Adapters.

(** ** [try]/[except] *)

Lemma try_except_caught {W A} (body : M W A) handler e h w w' :
  body w = (inl e, w') -> handler e = Some h ->
  try_except body handler w = h w'.
Proof. intros Hb Hh. unfold try_except. by rewrite Hb, Hh. Qed.

Lemma try_except_uncaught {W A} (body : M W A) handler e w w' :
  body w = (inl e, w') -> handler e = None ->
  try_except body handler w = (inl e, w').
Proof. intros Hb Hh. unfold try_except. by rewrite Hb, Hh. Qed.

Lemma try_except_returns {W A} (body : M W A) handler a w w' :
  body w = (inr a, w') -> try_except body handler w = (inr a, w').
Proof. intros Hb. unfold try_except. by rewrite Hb. Qed.

Lemma bind_raises {W A B} (m : M W A) (k : A -> M W B) e w w' :
  m w = (inl e, w') -> bind m k w = (inl e, w').
Proof. intros Hm. unfold bind. by rewrite Hm. Qed.

Lemma bind_returns {W A B} (m : M W A) (k : A -> M W B) a w w' :
  m w = (inr a, w') -> bind m k w = k a w'.
Proof. intros Hm. unfold bind. by rewrite Hm. Qed.

(** ** sqlalchemy *)

Section SQLAlchemy.
Context {W Row : Type} (db : @SQLAlchemy.Session W Row) (_pk : string).



(** A commit that fails after the row was built and added makes the
    body of create raise. *)
Lemma sqlalchemy_create_commit_fails model row e w w1 w2 w3 :
  SQLAlchemy.db_model db model w = (inr row, w1) ->
  SQLAlchemy.add db row w1 = (inr tt, w2) ->
  SQLAlchemy.commit db w2 = (inl e, w3) ->
  SQLAlchemy._create_body db model w = (inl e, w3).
Proof.
  intros H1 H2 H3. unfold SQLAlchemy._create_body.
  erewrite bind_returns by done.
  erewrite bind_returns by done.
  by erewrite bind_raises.
Qed.
End SQLAlchemy.

(** ** gino *)

Section Gino.
Context {W Row : Type} (db : @Gino.Engine W Row) (_pk : string).


End Gino.

(** ** databases *)

Section Databases.
Context {W : Type} (db : @Databases.Database W) (_pk : string)
  (_pk_type : Databases.pytype).


(** Update turns every exception into 404, an integrity violation
    included. *)
Lemma databases_update_404 item_id schema e w w1 :
  Databases._update_body db _pk item_id schema w = (inl e, w1) ->
  Databases._update db _pk item_id schema w = (inl NOT_FOUND, w1).
Proof.
  intros Hb. unfold Databases._update.
  by erewrite try_except_caught.
Qed.
End Databases.

(** ** tortoise *)

Section Tortoise.
Context {W Row : Type} (db : @Tortoise.Model W Row).

(** Nothing is caught: what [save] raises is what create raises. *)
Lemma tortoise_create_propagates model row e w w1 w2 :
  Tortoise.db_model db model w = (inr row, w1) ->
  Tortoise.save db row w1 = (inl e, w2) ->
  Tortoise._create db model w = (inl e, w2).
Proof.
  intros H1 H2. unfold Tortoise._create.
  erewrite bind_returns by done. by erewrite bind_raises.
Qed.

Lemma tortoise_update_propagates model item_id e w w1 :
  Tortoise.filter_update db item_id model w = (inl e, w1) ->
  Tortoise._update db model item_id w = (inl e, w1).
Proof. intros H. unfold Tortoise._update. by erewrite bind_raises. Qed.
End Tortoise.

(** ** The translation, adapter by adapter *)




(** The update route of the Databases adapter answers the same failure
    with 404. *)
Example databases_update_integrity_violation_404 :
  Databases.fetch_one_update Failing.database (VInt 1)
    (delete "id" Failing.potato) [] = (inl Failing.duplicate_key, ["fetch_one"]) /\
  Databases._update Failing.database "id" (VInt 1) Failing.potato [] =
    (inl (HTTPException 404 "Item not found"), ["fetch_one"]).
Proof. split; reflexivity. Qed.

End AdaptersSpec.


(** * Further properties of the in-memory router *)

Module MemMore.
Import Mem MemExtra MemFacts MemSpec.


Lemma reachable_invariant self : reachable self -> invariant self.
Proof.
  induction 1 as [p|s req _ IH]; [apply invariant_init|by apply invariant_handle].
Qed.




(** ** Round trips *)





(** X5. In any state reached from a fresh router, once delete-one has
    been asked for an identifier, get-one, update and delete-one of that
    identifier answer 404, whether or not a record was removed. *)
Theorem delete_one_then_not_found (self : MemoryCRUDRouter) (item_id : Z)
    (payload : gmap string value) :
  reachable self ->
  let after := fst (_delete_one self item_id) in
  snd (_get_one after item_id) = inl NOT_FOUND /\
  snd (_update after payload item_id) = inl NOT_FOUND /\
  snd (_delete_one after item_id) = inl NOT_FOUND.
Proof.
  intros Hr. apply reachable_invariant in Hr as [Hnd _]. simpl.
  assert (Ha : absent item_id (models (fst (_delete_one self item_id)))).
  { destruct (first_match item_id (models self)) as [Ha|(l1 & m & l2 & Hms & Ha & <-)].
    - by rewrite _delete_one_miss.
    - rewrite (_delete_one_hit _ _ _ _ Hms Ha). simpl.
      rewrite Hms, fmap_app, fmap_cons in Hnd.
      apply NoDup_app in Hnd as (_ & _ & Hnd).
      apply NoDup_cons in Hnd as [Hm _].
      apply Forall_app. split; [done|].
      apply Forall_forall. intros x Hx Hid. apply Hm.
      rewrite <- Hid. apply list_elem_of_fmap. eauto. }
  split; [by apply _get_one_not_found_iff|].
  split; [by apply _update_not_found_iff|by apply _delete_one_not_found_iff].
Qed.

Lemma delete_one_then_not_found_witness :
  let s := fst (handle (fst (handle (init true) (Create brown))) (Create brown)) in
  reachable s /\
  snd (_get_one (fst (_delete_one s 1)) 1) = inl NOT_FOUND /\
  snd (_update (fst (_delete_one s 1)) yellow 1) = inl NOT_FOUND /\
  snd (_delete_one (fst (_delete_one s 1)) 1) = inl NOT_FOUND.
Proof.
  assert (H : reachable
                (fst (handle (fst (handle (init true) (Create brown))) (Create brown)))).
  { apply (reachable_step _ (Create brown)).
    apply (reachable_step _ (Create brown)). apply reachable_init. }
  split; [exact H|].
  exact (delete_one_then_not_found _ 1 yellow H).
Defined.

(** In a store that holds the same identifier twice, which no sequence of
    requests produces, delete-one leaves the second record behind. *)
Example delete_one_duplicate_ids :
  snd (_get_one
         (fst (_delete_one
                 {| pagination := false;
                    models := [Model 1 brown; Model 1 yellow]; _id := 2 |} 1)) 1)
  = inr (Model 1 yellow).
Proof. reflexivity. Qed.


Lemma _update_frame (self : MemoryCRUDRouter)
    (payload : gmap string value) (item_id : Z) :
  id <$> models (fst (_update self payload item_id)) = id <$> models self /\
  _id (fst (_update self payload item_id)) = _id self /\
  pagination (fst (_update self payload item_id)) = pagination self.
Proof.
  destruct (first_match item_id (models self)) as [Ha|(l1 & m & l2 & Hms & Ha & <-)].
  - by rewrite _update_miss.
  - rewrite (_update_hit _ payload _ _ _ Hms Ha).
    destruct (replacement payload (id m)) as [e|new] eqn:Hr; [done|].
    apply replacement_id in Hr. simpl.
    by rewrite Hms, !fmap_app, !fmap_cons, Hr.
Qed.

(** X9. Update never changes which identifiers are stored, their order,
    or the counter: whatever the payload and the identifier, and whether
    it succeeds or raises. *)
Theorem update_keeps_identifiers (self : MemoryCRUDRouter)
    (payload : gmap string value) (item_id : Z) :
  id <$> models (fst (_update self payload item_id)) = id <$> models self /\
  _id (fst (_update self payload item_id)) = _id self /\
  pagination (fst (_update self payload item_id)) = pagination self.
Proof. apply _update_frame. Qed.

(** ** Order of the list and of the identifiers *)

Lemma ordered_init p : ordered (init p).
Proof. split; simpl; constructor. Qed.

Lemma ordered_handle self req : ordered self -> ordered (fst (handle self req)).
Proof.
  intros [Hs Hlt]. destruct req as [params|i|p|i p| |i]; simpl.
  - pose proof (_get_all_state self params) as Heq.
    destruct (_get_all self params). simpl in *. by subst.
  - done.
  - rewrite _create_eq. split; simpl.
    + rewrite fmap_app. apply StronglySorted_app_2.
      * intros x1 x2 Hx1 Hx2. apply list_elem_of_singleton in Hx2. subst x2.
        apply list_elem_of_fmap in Hx1 as (m & -> & Hin).
        by eapply Forall_forall in Hlt.
      * done.
      * repeat constructor.
    + apply Forall_app. split.
      * eapply Forall_impl; [done|]. simpl. intros; lia.
      * repeat constructor. simpl. lia.
  - destruct (first_match i (models self)) as [Ha|(l1 & m & l2 & Hms & Ha & <-)].
    + by rewrite _update_miss.
    + rewrite (_update_hit _ p _ _ _ Hms Ha).
      destruct (replacement p (id m)) as [e|new] eqn:Hr; [done|].
      apply replacement_id in Hr. rewrite Hms in Hs, Hlt. split; simpl.
      * rewrite fmap_app, fmap_cons, Hr.
        by rewrite fmap_app, fmap_cons in Hs.
      * apply Forall_app in Hlt as [H1 H2].
        apply Forall_cons in H2 as [Hm H2].
        apply Forall_app. split; [done|]. constructor; [|done].
        simpl. by rewrite Hr.
  - split; simpl; constructor.
  - destruct (first_match i (models self)) as [Ha|(l1 & m & l2 & Hms & Ha & <-)].
    + by rewrite _delete_one_miss.
    + rewrite (_delete_one_hit _ _ _ _ Hms Ha). rewrite Hms in Hs, Hlt.
      split; simpl.
      * rewrite fmap_app, fmap_cons in Hs. rewrite fmap_app.
        apply StronglySorted_app in Hs as (H1 & H2 & H3).
        apply StronglySorted_cons in H3 as [_ H3].
        apply StronglySorted_app_2; [|done|done].
        intros x1 x2 Hx1 Hx2. apply H1; [done|]. by right.
      * apply Forall_app in Hlt as [H1 H2].
        apply Forall_cons in H2 as [_ H2].
        by apply Forall_app.
Qed.

Lemma reachable_counter_pos self : reachable self -> 1 <= _id self.
Proof.
  induction 1 as [p|s req _ IH]; [done|].
  pose proof (handle_counter_mono s req). lia.
Qed.

(** X7. In any state reached from a fresh router the list is in order of
    creation: identifiers increase strictly from the head of the list to
    its end, they are all at least 1 and below the counter. *)
Theorem reachable_ids_increasing (self : MemoryCRUDRouter) :
  reachable self ->
  StronglySorted Z.lt (id <$> models self) /\
  Forall (fun m => 1 <= id m < _id self) (models self).
Proof.
  intros Hr.
  assert (Hord : ordered self /\ Forall (fun m => 1 <= id m) (models self)).
  { induction Hr as [p|s req Hs [IH1 IH2]].
    - split; [apply ordered_init|constructor].
    - split; [by apply ordered_handle|].
      destruct req as [params|i|p|i p| |i]; simpl.
      + pose proof (_get_all_state s params) as Heq.
        destruct (_get_all s params). simpl in *. by subst.
      + done.
      + rewrite _create_eq. simpl. apply Forall_app. split; [done|].
        repeat constructor. simpl.
        by apply reachable_counter_pos.
      + destruct (first_match i (models s)) as [Ha|(l1 & m & l2 & Hms & Ha & <-)].
        * by rewrite _update_miss.
        * rewrite (_update_hit _ p _ _ _ Hms Ha).
          destruct (replacement p (id m)) as [e|new] eqn:Hrep; [done|].
          apply replacement_id in Hrep. rewrite Hms in IH2. simpl.
          apply Forall_app in IH2 as [H1 H2].
          apply Forall_cons in H2 as [Hm H2].
          apply Forall_app. split; [done|]. constructor; [|done]. by rewrite Hrep.
      + constructor.
      + destruct (first_match i (models s)) as [Ha|(l1 & m & l2 & Hms & Ha & <-)].
        * by rewrite _delete_one_miss.
        * rewrite (_delete_one_hit _ _ _ _ Hms Ha). rewrite Hms in IH2. simpl.
          apply Forall_app in IH2 as [H1 H2].
          apply Forall_cons in H2 as [_ H2].
          by apply Forall_app. }
  destruct Hord as [[Hs Hlt] Hge]. split; [done|].
  apply Forall_forall. intros m Hm.
  eapply Forall_forall in Hlt; [|done]. eapply Forall_forall in Hge; [|done].
  simpl in *. lia.
Qed.

Lemma reachable_ids_increasing_witness :
  let s := fst (handle (fst (handle (init false) (Create brown))) (Create red_with_id)) in
  reachable s /\
  StronglySorted Z.lt (id <$> models s) /\
  Forall (fun m => 1 <= id m < _id s) (models s).
Proof.
  assert (H : reachable
                (fst (handle (fst (handle (init false) (Create brown)))
                        (Create red_with_id)))).
  { apply (reachable_step _ (Create red_with_id)).
    apply (reachable_step _ (Create brown)). apply reachable_init. }
  split; [exact H|].
  exact (reachable_ids_increasing _ H).
Defined.






(** ** Pages *)

Lemma page_items self (start len : Z) params :
  pagination self = true ->
  to_raw_params params = {| limit := Some len; offset := start |} ->
  0 <= start -> 0 <= len ->
  listing_items (snd (_get_all self params)) =
    take (Z.to_nat len) (drop (Z.to_nat start) (models self)).
Proof.
  intros Hp Hraw Hs Hl. unfold _get_all. rewrite Hp, Hraw. simpl.
  by apply slice_from_to.
Qed.

(** X10. With pagination on and a resolved offset and limit that are not
    negative, the number of records on the page is the limit, cut down to
    what the list still holds from the offset on (nothing when the offset
    is at or past the end); without a limit it is all that the list holds
    from the offset on. The total is the length of the list either way. *)
Theorem page_length (self : MemoryCRUDRouter) (params : AbstractParams) :
  pagination self = true ->
  0 <= offset (to_raw_params params) ->
  (forall lim, limit (to_raw_params params) = Some lim -> 0 <= lim) ->
  exists pg,
    snd (_get_all self params) = Paged pg /\
    total pg = Z.of_nat (length (models self)) /\
    length (items pg) =
      let rest := (length (models self) - Z.to_nat (offset (to_raw_params params)))%nat in
      match limit (to_raw_params params) with
      | None => rest
      | Some lim => Nat.min (Z.to_nat lim) rest
      end.
Proof.
  intros Hp Hoff Hlim. unfold _get_all. rewrite Hp. simpl.
  eexists. split; [done|]. split; [done|]. simpl.
  destruct (limit (to_raw_params params)) as [lim|].
  - rewrite slice_from_to; [|done|by apply Hlim].
    by rewrite length_take, length_drop.
  - rewrite slice_from by done. by rewrite length_drop.
Qed.

Lemma page_length_witness :
  exists pg,
    snd (_get_all three_potatoes (page 2 1)) = Paged pg /\
    total pg = 3 /\ length (items pg) = 1%nat.
Proof.
  refine (page_length three_potatoes (page 2 1) _ _ _).
  - reflexivity.
  - simpl. lia.
  - simpl. intros lim [= <-]. lia.
Defined.

(** X11. With pagination on, the pages of a given size partition the
    list: the first [n] pages, one after the other, are the first
    [n * size] records, and they are the whole list as soon as
    [n * size] reaches its length. *)
Theorem pages_partition (self : MemoryCRUDRouter) (size : Z) (n : nat) :
  pagination self = true ->
  0 <= size ->
  mjoin ((fun k => listing_items (snd (_get_all self (page size k)))) <$> seq 0 n) =
    take (n * Z.to_nat size) (models self) /\
  ((length (models self) <= n * Z.to_nat size)%nat ->
   mjoin ((fun k => listing_items (snd (_get_all self (page size k)))) <$> seq 0 n) =
     models self).
Proof.
  intros Hp Hsize.
  assert (H : mjoin ((fun k => listing_items (snd (_get_all self (page size k))))
                       <$> seq 0 n) = take (n * Z.to_nat size) (models self)).
  { induction n as [|n IH]; [done|].
    rewrite seq_S, fmap_app, join_app, IH. simpl.
    rewrite (page_items self (size * Z.of_nat n) size); [|done|done|lia|done].
    rewrite app_nil_r.
    replace (Z.to_nat (size * Z.of_nat n)) with (n * Z.to_nat size)%nat by lia.
    rewrite take_take_drop. f_equal. lia. }
  split; [done|]. intros Hlen. rewrite H. by apply take_ge.
Qed.

Lemma pages_partition_witness :
  mjoin ((fun k => listing_items (snd (_get_all three_potatoes (page 2 k))))
           <$> seq 0 2) = models three_potatoes.
Proof.
  refine (proj2 (pages_partition three_potatoes 2 2 _ _) _).
  - reflexivity.
  - lia.
  - simpl. lia.
Defined.

End MemMore.


(** * Further properties of route registration and of overriding *)

Module OverridesSpec.
Import Base Overrides.

(** ** What [__init__] registers *)

Lemma item_path_init c :
  item_path (__init__ c) = "/{" +:+ path_param_name (__init__ c) +:+ "}/".
Proof. done. Qed.

Lemma path_param_name_init c :
  path_param_name (__init__ c) =
    match cfg_path_param_name c with
    | None =>
        replace " " "_"
          (lower (if str_truthy (cfg_entity_name c) then fmt (cfg_entity_name c)
                  else "Item")) +:+ "_id"
    | Some n => n
    end.
Proof.
  unfold __init__.
  destruct (enabled (get_all_route c)), (enabled (create_route c)),
    (enabled (delete_all_route c)), (enabled (get_one_route c)),
    (enabled (update_route c)), (enabled (delete_one_route c)); reflexivity.
Qed.

(** The routes [__init__] registers, with what each of them carries. *)
Lemma init_routes (c : config) :
  signature <$> routes (__init__ c) =
    snd <$> filter (fun p => enabled (fst p)) (generated c) /\
  route_endpoint <$> routes (__init__ c) =
    filter (fun e => enabled (flag_of c e))
      [E_get_all; E_create; E_delete_all; E_get_one; E_update; E_delete_one] /\
  Forall (fun r =>
            dependencies r =
              match flag_of c (route_endpoint r) with
              | FBool _ => Some []
              | FDeps deps => deps
              end /\
            responses r =
              if single_item (route_endpoint r)
              then Some [(404, "Item not found")] else None)
         (routes (__init__ c)).
Proof.
  unfold generated. rewrite item_path_init, path_param_name_init.
  unfold __init__.
  cbn [filter list_filter fst flag_of].
  set (pp := match cfg_path_param_name c with None => _ | Some n => n end).
  set (sp := if str_truthy (cfg_summary_prefix c) then _ else _).
  set (en := if str_truthy (cfg_entity_name c) then _ else _).
  set (enp := if str_truthy (cfg_entity_name_plural c) then _ else _).
  set (pf := _base_path +:+ _).
  clearbody pp sp en enp pf.
  destruct (enabled (get_all_route c)), (enabled (create_route c)),
    (enabled (delete_all_route c)), (enabled (get_one_route c)),
    (enabled (update_route c)), (enabled (delete_one_route c));
    (split; [reflexivity|split; [reflexivity|]]);
    repeat constructor.
Qed.

(** X12. Whatever the six flags are, [__init__] registers exactly the
    routes whose flag is true, in the fixed order get-all, create,
    delete-all, get-one, update, delete-one, each with its path, method
    and status code. A flag given as [False], [None] or an empty
    dependency list switches its route off. *)
Theorem registers_enabled_routes (c : config) :
  (signature <$> routes (__init__ c)) =
    (snd <$> filter (fun p => enabled (fst p)) (generated c)) /\
  (route_endpoint <$> routes (__init__ c)) =
    filter (fun e => enabled (flag_of c e))
      [E_get_all; E_create; E_delete_all; E_get_one; E_update; E_delete_one].
Proof. destruct (init_routes c) as (H1 & H2 & _). by split. Qed.

(** X13. Every route that [__init__] registers carries the dependencies of
    its own flag, none when the flag is a boolean, and documents the 404
    response exactly when it is one of the three single-item routes. *)
Theorem registered_route_dependencies_and_responses (c : config) (r : route) :
  r ∈ routes (__init__ c) ->
  dependencies r =
    match flag_of c (route_endpoint r) with
    | FBool _ => Some []
    | FDeps deps => deps
    end /\
  responses r =
    if single_item (route_endpoint r) then Some [(404, "Item not found")] else None.
Proof.
  intros Hr. destruct (init_routes c) as (_ & _ & H).
  by eapply Forall_forall in H.
Qed.

Lemma registered_route_dependencies_and_responses_witness :
  let r := nth 3 (routes (__init__ guarded_config)) (plain_route "" E_get_all "") in
  r ∈ routes (__init__ guarded_config) /\
  route_endpoint r = E_delete_one /\
  dependencies r = Some ["login"; "admin"] /\
  responses r = Some [(404, "Item not found")].
Proof.
  assert (H : nth 3 (routes (__init__ guarded_config)) (plain_route "" E_get_all "")
                ∈ routes (__init__ guarded_config)).
  { apply list_elem_of_lookup. exists 3%nat. reflexivity. }
  split; [exact H|]. split; [reflexivity|].
  exact (registered_route_dependencies_and_responses guarded_config _ H).
Defined.

(** ** Removing routes *)

Lemma append_inj_l (p a b : string) : p +:+ a = p +:+ b -> a = b.
Proof. induction p as [|c p IH]; simpl; [done|]. intros [= H]. by apply IH. Qed.

Lemma is_target_key self path methods r :
  is_target self path methods r = true <-> key r = (path, list_to_set methods).
Proof.
  unfold is_target, key, route_path.
  rewrite andb_true_iff, !bool_decide_eq_true. split.
  - intros [Hp Hm]. apply append_inj_l in Hp. by rewrite Hp, Hm.
  - intros [= -> ->]. done.
Qed.

Lemma route_eqb_key x y : route_eqb y x = true -> key y = key x.
Proof.
  unfold route_eqb, key.
  rewrite !andb_true_iff, !bool_decide_eq_true. by intros [[-> _] ->].
Qed.

Lemma route_eqb_refl x : route_eqb x x = true.
Proof.
  unfold route_eqb. by rewrite !andb_true_iff, !bool_decide_eq_true.
Qed.

Lemma is_target_eqb self path methods x y :
  route_eqb y x = true ->
  is_target self path methods y = is_target self path methods x.
Proof.
  intros H%route_eqb_key.
  apply eq_true_iff_eq. by rewrite !is_target_key, H.
Qed.

Section Loop.
Context (target : route -> bool).
Hypothesis target_eqb : forall x y, route_eqb y x = true -> target y = target x.

Lemma list_remove_here pre x post :
  target x = true ->
  Forall (fun y => target y = false) pre ->
  list_remove x (pre ++ x :: post) = inr (pre ++ post).
Proof.
  intros Hx. induction 1 as [|y pre Hy _ IH]; simpl.
  - by rewrite route_eqb_refl.
  - destruct (route_eqb y x) eqn:He.
    + apply target_eqb in He. congruence.
    + by rewrite IH.
Qed.

Lemma loop_end fuel routes :
  remove_loop target fuel routes (length routes) = Some (inr routes).
Proof. destruct fuel; simpl; by rewrite lookup_ge_None_2. Qed.

Lemma loop_no_targets fuel : forall pre rest,
  (length rest <= fuel)%nat ->
  Forall (fun r => target r = false) rest ->
  remove_loop target fuel (pre ++ rest) (length pre) = Some (inr (pre ++ rest)).
Proof.
  induction fuel as [|fuel IH]; intros pre rest Hlen Hrest.
  - destruct rest; simpl in Hlen; [|lia]. rewrite app_nil_r. apply loop_end.
  - destruct rest as [|r rest].
    + rewrite app_nil_r. apply loop_end.
    + simpl. rewrite list_lookup_middle by done.
      apply Forall_cons in Hrest as [-> Hrest].
      specialize (IH (pre ++ [r]) rest).
      rewrite length_app, Nat.add_1_r, <- app_assoc in IH. apply IH; [|done].
      simpl in Hlen. lia.
Qed.

Lemma loop_prefix pre : forall pre0 rest fuel,
  Forall (fun r => target r = false) pre ->
  remove_loop target (length pre + fuel) (pre0 ++ pre ++ rest) (length pre0) =
  remove_loop target fuel (pre0 ++ pre ++ rest) (length pre0 + length pre).
Proof.
  induction pre as [|r pre IH]; intros pre0 rest fuel Hpre; simpl.
  - by rewrite Nat.add_0_r.
  - apply Forall_cons in Hpre as [Hr Hpre].
    rewrite list_lookup_middle by done. rewrite Hr.
    specialize (IH (pre0 ++ [r]) rest fuel Hpre).
    rewrite length_app, Nat.add_1_r, <- app_assoc in IH. simpl in IH.
    rewrite IH. f_equal. lia.
Qed.

Lemma isolated_tail r l : isolated target (r :: l) -> isolated target l.
Proof. destruct l; simpl; [done|]. by intros [_ H]. Qed.

Lemma loop_isolated fuel : forall pre rest,
  (length rest <= fuel)%nat ->
  Forall (fun r => target r = false) pre ->
  isolated target rest ->
  remove_loop target fuel (pre ++ rest) (length pre) =
    Some (inr (pre ++ filter (fun r => target r = false) rest)).
Proof.
  induction fuel as [|fuel IH]; intros pre rest Hlen Hpre Hiso.
  - destruct rest; simpl in Hlen; [|lia].
    rewrite filter_nil, app_nil_r. apply loop_end.
  - destruct rest as [|r rest].
    + rewrite filter_nil, app_nil_r. apply loop_end.
    + simpl. rewrite list_lookup_middle by done.
      destruct (target r) eqn:Hr.
      * rewrite list_remove_here by done.
        rewrite filter_cons_False by congruence.
        destruct rest as [|r' rest].
        { rewrite filter_nil, !app_nil_r.
          destruct fuel; simpl; by rewrite lookup_ge_None_2 by lia. }
        destruct Hiso as [Hr' Hiso]. specialize (Hr' Hr).
        rewrite filter_cons_True by done.
        specialize (IH (pre ++ [r']) rest).
        rewrite length_app, Nat.add_1_r, <- !app_assoc in IH. simpl in IH.
        apply IH.
        -- simpl in Hlen. lia.
        -- apply Forall_app. split; [done|]. by constructor.
        -- by eapply isolated_tail.
      * rewrite filter_cons_True by done.
        specialize (IH (pre ++ [r]) rest).
        rewrite length_app, Nat.add_1_r, <- !app_assoc in IH. simpl in IH.
        apply IH.
        -- simpl in Hlen. lia.
        -- apply Forall_app. split; [done|]. by constructor.
        -- by eapply isolated_tail.
Qed.
End Loop.


Lemma remove_api_route_isolated (self : CRUDGenerator) (path : string)
    (methods : list string) :
  isolated (is_target self path methods) (routes self) ->
  remove_api_route self path methods =
    Some (inr (with_routes self
                 (filter (fun r => is_target self path methods r = false)
                    (routes self)))).
Proof.
  intros Hiso. unfold remove_api_route.
  by rewrite (loop_isolated _ (is_target_eqb self path methods) _ [] (routes self)).
Qed.

(** X14. When no route that matches the prefixed path and the method set
    is directly followed by another one that matches, [remove_api_route]
    never raises and removes exactly the matching routes: the others stay,
    in their order. *)
Theorem remove_api_route_removes_targets (self : CRUDGenerator) (path : string)
    (methods : list string) :
  isolated (is_target self path methods) (routes self) ->
  remove_api_route self path methods =
    Some (inr (with_routes self
                 (filter (fun r => is_target self path methods r = false)
                    (routes self)))).
Proof. apply remove_api_route_isolated. Qed.

Lemma remove_api_route_removes_targets_witness :
  remove_api_route doubled "/" ["DELETE"] =
    Some (inr (with_routes doubled
                 [ plain_route "/" E_get_all "GET";
                   plain_route "/bulk" E_create "POST";
                   plain_route "/bulk" E_create "POST" ])).
Proof.
  rewrite (remove_api_route_removes_targets doubled "/" ["DELETE"]).
  - reflexivity.
  - vm_compute. repeat split; intros; congruence.
Defined.

(** X15. When two matching routes stand next to each other, the second
    one survives: removing the first moves the second into the place the
    loop has just left, so it is never looked at. *)
Theorem remove_api_route_skips_next (self : CRUDGenerator) (path : string)
    (methods : list string) (pre post : list route) (r1 r2 : route) :
  routes self = pre ++ r1 :: r2 :: post ->
  Forall (fun r => is_target self path methods r = false) pre ->
  is_target self path methods r1 = true ->
  is_target self path methods r2 = true ->
  Forall (fun r => is_target self path methods r = false) post ->
  remove_api_route self path methods =
    Some (inr (with_routes self (pre ++ r2 :: post))).
Proof.
  intros Hrs Hpre H1 H2 Hpost. unfold remove_api_route. rewrite Hrs.
  set (target := is_target self path methods) in *.
  replace (length (pre ++ r1 :: r2 :: post))
    with (length pre + S (S (length post)))%nat
    by (rewrite length_app; simpl; lia).
  rewrite (loop_prefix target pre [] (r1 :: r2 :: post)) by done.
  cbn [app length Nat.add remove_loop].
  rewrite (list_lookup_middle pre (r2 :: post) r1) by done.
  rewrite H1.
  rewrite (list_remove_here target (is_target_eqb self path methods)) by done.
  pose proof (loop_no_targets target (S (length post)) (pre ++ [r2]) post
                (Nat.le_succ_diag_r _) Hpost) as Hl.
  rewrite length_app, Nat.add_1_r, <- app_assoc in Hl. simpl in Hl.
  simpl. by rewrite Hl.
Qed.

Lemma remove_api_route_skips_next_witness :
  remove_api_route doubled "/bulk" ["POST"] =
    Some (inr (with_routes doubled
                 [ plain_route "/" E_get_all "GET";
                   plain_route "/bulk" E_create "POST";
                   plain_route "/" E_delete_all "DELETE" ])).
Proof.
  apply (remove_api_route_skips_next doubled "/bulk" ["POST"]
           [plain_route "/" E_get_all "GET"]
           [plain_route "/" E_delete_all "DELETE"]
           (plain_route "/bulk" E_create "POST")
           (plain_route "/bulk" E_create "POST")).
  - reflexivity.
  - repeat constructor.
  - reflexivity.
  - reflexivity.
  - repeat constructor.
Defined.





Lemma key_signature r : key r = sig_key (signature r).
Proof. done. Qed.

Lemma singleton_methods_ne (a b : string) :
  a <> b -> (list_to_set [a] : gset string) <> list_to_set [b].
Proof.
  intros Hab Heq. apply Hab.
  assert (Hin : a ∈ (list_to_set [b] : gset string)).
  { rewrite <- Heq. apply elem_of_list_to_set. by left. }
  apply elem_of_list_to_set in Hin. by apply list_elem_of_singleton in Hin.
Qed.

Lemma generated_keys_NoDup c : NoDup (sig_key <$> (snd <$> generated c)).
Proof.
  unfold generated. rewrite item_path_init.
  set (pp := path_param_name (__init__ c)). clearbody pp.
  cbn [fmap list_fmap snd]. unfold sig_key. cbn [fst snd fmap list_fmap].
  change (upper "GET") with "GET". change (upper "POST") with "POST".
  change (upper "DELETE") with "DELETE". change (upper "PATCH") with "PATCH".
  repeat (apply NoDup_cons; split;
          [rewrite ?not_elem_of_cons; repeat split;
             try apply not_elem_of_nil;
             (intros Heq;
              first [ by (apply (f_equal fst) in Heq; simpl in Heq; discriminate)
                    | apply (f_equal snd) in Heq; simpl in Heq; revert Heq;
                      apply singleton_methods_ne; discriminate ])
          |]).
  apply NoDup_nil_2.
Qed.

Lemma init_keys_NoDup c : NoDup (key <$> routes (__init__ c)).
Proof.
  destruct (init_routes c) as (Hsig & _ & _).
  replace (key <$> routes (__init__ c))
    with (sig_key <$> (signature <$> routes (__init__ c))).
  - rewrite Hsig. eapply sublist_NoDup; [apply generated_keys_NoDup|].
    do 2 apply fmap_sublist. apply sublist_filter.
  - rewrite <- list_fmap_compose. by apply list_fmap_ext.
Qed.

Lemma NoDup_keys_isolated self path methods l :
  NoDup (key <$> l) -> isolated (is_target self path methods) l.
Proof.
  induction l as [|r [|r' l] IH]; simpl; [done|done|].
  intros Hnd. apply NoDup_cons in Hnd as [Hr Hnd]. split.
  - intros H1. destruct (is_target self path methods r') eqn:H2; [|done].
    exfalso. apply Hr. apply is_target_key in H1, H2. rewrite H1, <- H2. by left.
  - by apply IH.
Qed.

(** X17. On a router as [__init__] leaves it, whatever the flags,
    [remove_api_route] never raises and removes exactly the generated
    routes registered under that path with that method set; that is at
    most one route, since the generated routes differ pairwise in path or
    method. *)
Theorem remove_generated_route (c : config) (path : string) (methods : list string) :
  let self := __init__ c in
  remove_api_route self path methods =
    Some (inr (with_routes self
                 (filter (fun r => is_target self path methods r = false)
                    (routes self)))) /\
  (length (routes self) - 1 <=
     length (filter (fun r => is_target self path methods r = false) (routes self)))%nat.
Proof.
  simpl. split.
  - apply remove_api_route_isolated, NoDup_keys_isolated, init_keys_NoDup.
  - pose proof (init_keys_NoDup c) as Hnd.
    induction (routes (__init__ c)) as [|r l IH]; simpl; [done|].
    apply NoDup_cons in Hnd as [Hr Hnd].
    destruct (is_target (__init__ c) path methods r) eqn:Ht.
    + rewrite filter_cons_False by congruence.
      rewrite Nat.sub_0_r.
      assert (Hall : Forall (fun r => is_target (__init__ c) path methods r = false) l).
      { apply Forall_forall. intros r' Hr'.
        destruct (is_target (__init__ c) path methods r') eqn:Ht'; [|done].
        exfalso. apply Hr. apply is_target_key in Ht, Ht'. rewrite Ht, <- Ht'.
        by apply list_elem_of_fmap_2. }
      clear -Hall. induction Hall as [|x l Hx _ IH']; simpl; [done|].
      rewrite filter_cons_True by done. simpl. lia.
    + rewrite filter_cons_True by done. simpl. specialize (IH Hnd). lia.
Qed.

Lemma list_remove_elem x l :
  x ∈ l ->
  exists l1 y l2,
    l = l1 ++ y :: l2 /\ route_eqb y x = true /\ list_remove x l = inr (l1 ++ l2).
Proof.
  induction l as [|y l IH]; intros Hin; [by apply elem_of_nil in Hin|].
  simpl. destruct (route_eqb y x) eqn:He.
  - by exists [], y, l.
  - apply elem_of_cons in Hin as [->|Hin]; [by rewrite route_eqb_refl in He|].
    destruct (IH Hin) as (l1 & z & l2 & -> & Hz & ->).
    by exists (y :: l1), z, l2.
Qed.

Lemma loop_total target
    (target_eqb : forall x y, route_eqb y x = true -> target y = target x) fuel :
  forall routes i,
    (length routes - i <= fuel)%nat ->
    exists rs,
      remove_loop target fuel routes i = Some (inr rs) /\
      rs `sublist_of` routes /\
      filter (fun r => target r = false) rs =
        filter (fun r => target r = false) routes.
Proof.
  induction fuel as [|fuel IH]; intros routes i Hlen.
  - exists routes. split; [|done].
    destruct routes; simpl; [done|]. rewrite lookup_ge_None_2; [done|].
    simpl in *. lia.
  - destruct (routes !! i) as [r|] eqn:Hi.
    + simpl. rewrite Hi.
      pose proof (lookup_lt_Some _ _ _ Hi) as Hlt.
      destruct (target r) eqn:Hr.
      * destruct (list_remove_elem r routes) as (l1 & y & l2 & -> & Hy & ->).
        { by eapply list_elem_of_lookup_2. }
        destruct (IH (l1 ++ l2) (S i)) as (rs & -> & Hsub & Hf).
        { rewrite length_app in *. simpl in *. lia. }
        exists rs. split; [done|]. split.
        -- etrans; [done|]. apply sublist_app; [done|]. by apply sublist_cons.
        -- rewrite Hf, !filter_app. f_equal.
           rewrite filter_cons_False; [done|].
           rewrite (target_eqb _ _ Hy), Hr. done.
      * destruct (IH routes (S i)) as (rs & -> & Hsub & Hf); [lia|].
        by exists rs.
    + exists routes. split; [|done]. simpl. by rewrite Hi.
Qed.

(** X25. Whatever the routes are, [remove_api_route] ends and does not
    raise; what it leaves is the list it found with some routes taken
    out, and every route that does not match the prefixed path and the
    method set is still there, in the same order. *)
Theorem remove_api_route_only_removes_targets (self : CRUDGenerator)
    (path : string) (methods : list string) :
  exists rs,
    remove_api_route self path methods = Some (inr (with_routes self rs)) /\
    rs `sublist_of` routes self /\
    filter (fun r => is_target self path methods r = false) rs =
      filter (fun r => is_target self path methods r = false) (routes self).
Proof.
  destruct (loop_total _ (is_target_eqb self path methods)
              (length (routes self)) (routes self) 0) as (rs & Hl & Hsub & Hf);
    [lia|].
  exists rs. unfold remove_api_route. by rewrite Hl.
Qed.

End OverridesSpec.


(** * Properties of the schema helpers *)

Module UtilsSpec.
Import Utils.

Lemma schema_factory_names cls pk suffix :
  name <$> __fields__ (schema_factory cls pk suffix) =
    filter (fun n => n ≠ pk) (name <$> __fields__ cls).
Proof.
  unfold schema_factory. simpl. rewrite <- list_fmap_compose.
  induction (__fields__ cls) as [|f fs IH]; [done|].
  rewrite fmap_cons. destruct (decide (name f = pk)) as [Heq|Hne].
  - rewrite !filter_cons_False by (intros H; by apply H). done.
  - rewrite !filter_cons_True by done. rewrite fmap_cons. simpl. by rewrite IH.
Qed.

Lemma schema_factory_no_pk cls pk suffix :
  pk ∉ dict_keys (schema_factory cls pk suffix).
Proof.
  unfold dict_keys. rewrite schema_factory_names.
  rewrite elem_of_list_to_set, list_elem_of_filter. by intros [H _].
Qed.

(** X18. The schema made by [schema_factory] is named after the class
    with the suffix added; it has every field of the class except the
    primary key, in the same order and with the same types, each one
    required whatever it was in the class; so the primary key is never
    among the keys of its [dict()]. *)
Theorem schema_factory_drops_pk_only (cls : schema_cls) (pk suffix : string) :
  let made := schema_factory cls pk suffix in
  __name__ made = (__name__ cls +:+ suffix) /\
  (name <$> __fields__ made) = filter (fun n => n ≠ pk) (name <$> __fields__ cls) /\
  (pk ∉ dict_keys made) /\
  dict_keys made = dict_keys cls ∖ {[ pk ]} /\
  Forall (fun f => required f = true) (__fields__ made) /\
  (forall f, f ∈ __fields__ cls -> name f ≠ pk ->
     {| name := name f; type_ := type_ f; required := true |} ∈ __fields__ made).
Proof.
  intros made. subst made.
  split; [done|]. split; [apply schema_factory_names|].
  split; [apply schema_factory_no_pk|]. split; [|split].
  - unfold dict_keys. rewrite schema_factory_names.
    apply set_eq. intros n.
    rewrite elem_of_difference, !elem_of_list_to_set, list_elem_of_filter,
      elem_of_singleton. tauto.
  - unfold schema_factory. simpl. apply Forall_fmap, Forall_forall. by intros.
  - intros f Hf Hne. unfold schema_factory. simpl.
    apply list_elem_of_fmap. exists f. split; [done|].
    by apply list_elem_of_filter.
Qed.




End UtilsSpec.


(** * Further properties of the database adapters *)

Module AdaptersMore.
Import Adapters.

(** X20. In all four database adapters, update of an identifier for
    which the lookup finds no row answers 404. In the SQLAlchemy and Gino
    adapters nothing but the lookup has then been done: no attribute is
    set, nothing is committed or rolled back. In the Databases and
    Tortoise adapters the update statement has run before the lookup. *)
Theorem update_missing_row_404 :
  (forall W Row (db : @SQLAlchemy.Session W Row) _pk model item_id w w1,
      SQLAlchemy.query_get db item_id w = (inr None, w1) ->
      SQLAlchemy._update db _pk model item_id w = (inl NOT_FOUND, w1)) /\
  (forall W Row (db : @Gino.Engine W Row) _pk model item_id w w1,
      Gino.get db item_id w = (inr None, w1) ->
      Gino._update db _pk model item_id w = (inl NOT_FOUND, w1)) /\
  (forall W (db : @Databases.Database W) _pk item_id schema w w1 w2,
      Databases.fetch_one_update db item_id (delete _pk schema) w = (inr tt, w1) ->
      Databases.fetch_one_select db item_id w1 = (inr None, w2) ->
      Databases._update db _pk item_id schema w = (inl NOT_FOUND, w2)) /\
  (forall W Row (db : @Tortoise.Model W Row) model item_id w w1 w2,
      Tortoise.filter_update db item_id model w = (inr tt, w1) ->
      Tortoise.filter_first db item_id w1 = (inr None, w2) ->
      Tortoise._update db model item_id w = (inl NOT_FOUND, w2)).
Proof.
  repeat split.
  - intros W Row db _pk model item_id w w1 Hget.
    unfold SQLAlchemy._update, try_except, SQLAlchemy._update_body,
      SQLAlchemy._get_one, bind. by rewrite Hget.
  - intros W Row db _pk model item_id w w1 Hget.
    unfold Gino._update, try_except, Gino._update_body, Gino._get_one, bind.
    by rewrite Hget.
  - intros W db _pk item_id schema w w1 w2 Hupd Hget.
    unfold Databases._update, try_except, Databases._update_body,
      Databases._get_one, bind. by rewrite Hupd, Hget.
  - intros W Row db model item_id w w1 w2 Hupd Hget.
    unfold Tortoise._update, Tortoise._get_one, bind. by rewrite Hupd, Hget.
Qed.

Lemma update_missing_row_404_witness :
  SQLAlchemy._update AdaptersExtra.Missing.session "id" Failing.potato (VInt 9) [] =
    (inl NOT_FOUND, ["get"]) /\
  Gino._update AdaptersExtra.Missing.engine "id" Failing.potato (VInt 9) [] =
    (inl NOT_FOUND, ["get"]) /\
  Databases._update AdaptersExtra.Missing.database "id" (VInt 9) Failing.potato [] =
    (inl NOT_FOUND, ["update"; "select"]) /\
  Tortoise._update AdaptersExtra.Missing.tortoise Failing.potato (VInt 9) [] =
    (inl NOT_FOUND, ["update"; "first"]).
Proof.
  destruct update_missing_row_404 as (H1 & H2 & H3 & H4).
  split; [|split; [|split]].
  - apply H1. reflexivity.
  - apply H2. reflexivity.
  - apply (H3 _ _ _ _ _ _ ["update"]); reflexivity.
  - apply (H4 _ _ _ _ _ _ ["update"]); reflexivity.
Defined.

(** X21. In all four database adapters, delete-one of an identifier for
    which the lookup finds no row answers 404 and deletes nothing: the
    library is left as the lookup left it. *)
Theorem delete_one_missing_row_404 :
  (forall W Row (db : @SQLAlchemy.Session W Row) delete item_id w w1,
      SQLAlchemy.query_get db item_id w = (inr None, w1) ->
      AdaptersExtra.SQLAlchemy._delete_one db delete item_id w = (inl NOT_FOUND, w1)) /\
  (forall W Row (db : @Gino.Engine W Row) delete item_id w w1,
      Gino.get db item_id w = (inr None, w1) ->
      AdaptersExtra.Gino._delete_one db delete item_id w = (inl NOT_FOUND, w1)) /\
  (forall W (db : @Databases.Database W) execute_delete item_id w w1,
      Databases.fetch_one_select db item_id w = (inr None, w1) ->
      AdaptersExtra.Databases._delete_one db execute_delete item_id w =
        (inl NOT_FOUND, w1)) /\
  (forall W Row (db : @Tortoise.Model W Row) filter_delete item_id w w1,
      Tortoise.filter_first db item_id w = (inr None, w1) ->
      AdaptersExtra.Tortoise._delete_one db filter_delete item_id w =
        (inl NOT_FOUND, w1)).
Proof.
  repeat split.
  - intros W Row db del item_id w w1 Hget.
    unfold AdaptersExtra.SQLAlchemy._delete_one, SQLAlchemy._get_one, bind.
    by rewrite Hget.
  - intros W Row db del item_id w w1 Hget.
    unfold AdaptersExtra.Gino._delete_one, Gino._get_one, bind. by rewrite Hget.
  - intros W db del item_id w w1 Hget.
    unfold AdaptersExtra.Databases._delete_one, try_except,
      AdaptersExtra.Databases._delete_one_body, Databases._get_one, bind.
    by rewrite Hget.
  - intros W Row db del item_id w w1 Hget.
    unfold AdaptersExtra.Tortoise._delete_one, Tortoise._get_one, bind.
    by rewrite Hget.
Qed.

Lemma delete_one_missing_row_404_witness :
  AdaptersExtra.SQLAlchemy._delete_one AdaptersExtra.Missing.session
    AdaptersExtra.Missing.delete_row (VInt 9) [] = (inl NOT_FOUND, ["get"]) /\
  AdaptersExtra.Gino._delete_one AdaptersExtra.Missing.engine
    AdaptersExtra.Missing.delete_row (VInt 9) [] = (inl NOT_FOUND, ["get"]) /\
  AdaptersExtra.Databases._delete_one AdaptersExtra.Missing.database
    AdaptersExtra.Missing.delete_by_id (VInt 9) [] = (inl NOT_FOUND, ["select"]) /\
  AdaptersExtra.Tortoise._delete_one AdaptersExtra.Missing.tortoise
    AdaptersExtra.Missing.delete_by_id (VInt 9) [] = (inl NOT_FOUND, ["first"]).
Proof.
  destruct delete_one_missing_row_404 as (H1 & H2 & H3 & H4).
  split; [|split; [|split]].
  - apply H1. reflexivity.
  - apply H2. reflexivity.
  - apply H3. reflexivity.
  - apply H4. reflexivity.
Defined.

(** X22. The create, update and delete-one routes of the Databases
    adapter never let an exception of the driver through: create either
    returns a row or raises the HTTP exception 422, and update and
    delete-one either return a row or raise the HTTP exception 404,
    whatever the driver does. *)
Theorem databases_routes_raise_only_http (W : Type) (db : @Databases.Database W)
    (execute_delete : value -> M W unit) (_pk : string)
    (_pk_type : Databases.pytype) (item_id : value) (schema : gmap string value)
    (w : W) :
  let returns_or_raises (outcome : result (gmap string value) * W) (e : exn) :=
    (exists row, fst outcome = inr row) \/ fst outcome = inl e in
  returns_or_raises (Databases._create db _pk _pk_type schema w)
    (HTTPException 422 "Key already exists") /\
  returns_or_raises (Databases._update db _pk item_id schema w)
    (HTTPException 404 "Item not found") /\
  returns_or_raises (AdaptersExtra.Databases._delete_one db execute_delete item_id w)
    (HTTPException 404 "Item not found").
Proof.
  simpl. repeat split.
  - unfold Databases._create, try_except.
    destruct (Databases._create_body db _pk _pk_type schema w) as [[e0|r] w0];
      simpl; eauto.
  - unfold Databases._update, try_except.
    destruct (Databases._update_body db _pk item_id schema w) as [[e0|r] w0];
      simpl; eauto.
  - unfold AdaptersExtra.Databases._delete_one, try_except.
    destruct (AdaptersExtra.Databases._delete_one_body db execute_delete item_id w)
      as [[e0|r] w0]; simpl; eauto.
Qed.

(** X23. In the SQLAlchemy, Gino and Databases adapters the update route
    does not look at the primary key of the payload: two payloads that
    agree on every other field give the same update. *)
Theorem update_ignores_payload_pk :
  (forall W Row (db : @SQLAlchemy.Session W Row) _pk model model' item_id,
      delete _pk model = delete _pk model' ->
      SQLAlchemy._update db _pk model item_id =
      SQLAlchemy._update db _pk model' item_id) /\
  (forall W Row (db : @Gino.Engine W Row) _pk model model' item_id,
      delete _pk model = delete _pk model' ->
      Gino._update db _pk model item_id = Gino._update db _pk model' item_id) /\
  (forall W (db : @Databases.Database W) _pk item_id schema schema',
      delete _pk schema = delete _pk schema' ->
      Databases._update db _pk item_id schema =
      Databases._update db _pk item_id schema').
Proof.
  repeat split.
  - intros W Row db _pk model model' item_id Heq.
    unfold SQLAlchemy._update, SQLAlchemy._update_body. by rewrite Heq.
  - intros W Row db _pk model model' item_id Heq.
    unfold Gino._update, Gino._update_body. by rewrite Heq.
  - intros W db _pk item_id schema schema' Heq.
    unfold Databases._update, Databases._update_body. by rewrite Heq.
Qed.

Lemma update_ignores_payload_pk_witness :
  SQLAlchemy._update Failing.session "id" Failing.potato (VInt 1) =
  SQLAlchemy._update Failing.session "id" (<["id" := VInt 5]> Failing.potato) (VInt 1).
Proof.
  destruct update_ignores_payload_pk as (H & _ & _).
  apply H. by rewrite delete_insert_eq.
Defined.

(** X24. After a successful insert the create route of the Databases
    adapter reads the row back, by the value the insert returned when it
    has the type of the primary key and by the payload's primary key
    otherwise, and returns what it read. When nothing can be read back
    it answers 422, although the row was inserted. *)
Theorem databases_create_reads_row_back (W : Type) (db : @Databases.Database W)
    (_pk : string) (_pk_type : Databases.pytype) (schema : gmap string value)
    (rid : value) (w w1 w2 : W) (fetched : option (gmap string value)) :
  Databases.execute_insert db schema w = (inr rid, w1) ->
  Databases.fetch_one_select db
    (if bool_decide (Databases.type_of rid = _pk_type) then rid
     else default rid (schema !! _pk)) w1 = (inr fetched, w2) ->
  Databases._create db _pk _pk_type schema w =
    match fetched with
    | Some row =>
        if bool_decide (row = ∅)
        then (inl (HTTPException 422 "Key already exists"), w2)
        else (inr row, w2)
    | None => (inl (HTTPException 422 "Key already exists"), w2)
    end.
Proof.
  intros Hins Hsel.
  unfold Databases._create, try_except, Databases._create_body,
    Databases._get_one, bind.
  rewrite Hins, Hsel.
  destruct fetched as [row|]; [|done].
  by destruct (bool_decide (row = ∅)).
Qed.

Lemma databases_create_reads_row_back_witness :
  Databases._create AdaptersExtra.Missing.database "id" Databases.T_int
    Failing.potato [] =
    (inl (HTTPException 422 "Key already exists"), ["insert"; "select"]).
Proof.
  apply (databases_create_reads_row_back (list string)
           AdaptersExtra.Missing.database "id" Databases.T_int Failing.potato
           (VInt 1) [] ["insert"] ["insert"; "select"] None); reflexivity.
Defined.

End AdaptersMore.
